(** * duecredit/versions.py: the registry of versions of external modules

    A shallow embedding of [src/duecredit/versions.py]: the [UnknownVersion]
    sentinel, the [ExternalVersions] registry ([_deduce_version],
    [__getitem__], [keys], [__contains__], [versions], [dumps]) and the parts
    of the Python library the module calls ([distutils.version], the rich
    comparison protocol, [str.join], [sorted], [sys.modules], [__import__],
    [importlib.metadata.version]).

    Conventions:
    - a Python [str] is a [string] (its characters are bytes; the digits and
      letters the version grammars look at are ASCII);
    - a Python [int] that the code builds from digits is an [N], other ints
      are [Z];
    - a call that can raise returns a [result]; stateful code runs in the
      monad [M], a state and exception monad over [world];
    - a [dict] is a [gmap] stored in a heap of dict objects, so that two
      references to the same dict are told apart from two equal dicts. *)

From Stdlib Require Import ZArith NArith Ascii String List Bool Lia.
From Stdlib Require Import DecimalString DecimalN.
From stdpp Require Import base option list gmap strings sorting fin_maps.

Local Open Scope string_scope.
Local Open Scope list_scope.

(** ** Exceptions and results *)

(** The exception classes that reach this module.  All of them derive from
    [Exception]; [PackageNotFoundError] derives from [ImportError]. *)
Inductive exn : Type :=
  | TypeError
  | ValueError
  | AttributeError
  | KeyError
  | ImportError
  | PackageNotFoundError
  | OtherException (name : string).

(** [isinstance(e, ImportError)] *)
Definition is_ImportError (e : exn) : bool :=
  match e with
  | ImportError | PackageNotFoundError => true
  | _ => false
  end.

(** [isinstance(e, ValueError)] *)
Definition is_ValueError (e : exn) : bool :=
  match e with
  | ValueError => true
  | _ => false
  end.

Inductive result (A : Type) : Type :=
  | Ok (a : A)
  | Raise (e : exn).
Arguments Ok {A} a.
Arguments Raise {A} e.

Definition result_bind {A B} (r : result A) (k : A -> result B) : result B :=
  match r with
  | Ok a => k a
  | Raise e => Raise e
  end.

(** ** Strings *)

Module PyStr.

Definition is_digit (c : ascii) : bool :=
  let n := N_of_ascii c in ((48 <=? n) && (n <=? 57))%N.

Definition is_lower (c : ascii) : bool :=
  let n := N_of_ascii c in ((97 <=? n) && (n <=? 122))%N.

Definition digit_value (c : ascii) : N := (N_of_ascii c - 48)%N.

(** [int(s)] for a string of ASCII digits, most significant first.  (The
    interpreter's configurable limit on the number of digits is not
    modelled.) *)
Fixpoint int_of_digits_aux (acc : N) (s : string) : N :=
  match s with
  | EmptyString => acc
  | String c s' => int_of_digits_aux (10 * acc + digit_value c)%N s'
  end.

Definition int_of_digits (s : string) : N := int_of_digits_aux 0 s.

(** [str(n)] for a non-negative int. *)
Definition str_of_N (n : N) : string :=
  NilEmpty.string_of_uint (N.to_uint n).

(** [str(z)] for an int. *)
Definition str_of_Z (z : Z) : string :=
  match z with
  | Zneg p => String "-" (str_of_N (Npos p))
  | _ => str_of_N (Z.to_N z)
  end.

(** [sep.join(l)] *)
Fixpoint join (sep : string) (l : list string) : string :=
  match l with
  | [] => ""
  | [x] => x
  | x :: rest => x ++ sep ++ join sep rest
  end.

(** The longest prefix of [s] whose characters satisfy [p], and the rest. *)
Fixpoint span (p : ascii -> bool) (s : string) : string * string :=
  match s with
  | EmptyString => ("", "")
  | String c s' =>
      if p c then let '(a, b) := span p s' in (String c a, b)
      else ("", s)
  end.

End PyStr.

(** ** distutils.version *)

(** The letter of a pre-release tag, ['a'] or ['b']. *)
Inductive pre_tag : Type := PreA | PreB.

Definition pre_tag_char (t : pre_tag) : ascii :=
  match t with
  | PreA => "a"
  | PreB => "b"
  end.

(** [StrictVersion]: [self.version] is a triple of ints, [self.prerelease]
    is [None] or a pair of ['a'] or ['b'] and an int. *)
Record StrictVersion : Type := mkStrict {
  sv_version : N * N * N;
  sv_prerelease : option (pre_tag * N);
}.

(** A component of [LooseVersion.version]: an int when [int(x)] succeeded,
    the string otherwise. *)
Inductive component : Type :=
  | CInt (n : N)
  | CStr (s : string).

Record LooseVersion : Type := mkLoose {
  lv_vstring : string;
  lv_version : list component;
}.

Module Strict.

Import PyStr.

(** What is left after [\d+]: the digits matched and the rest, or [None]
    when there is no digit. *)
Definition digits1 (s : string) : option (string * string) :=
  match span is_digit s with
  | ("", _) => None
  | (d, rest) => Some (d, rest)
  end.

(** [$] with the default flags: at the end of the string, or just before
    a newline that ends it. *)
Definition at_end (s : string) : bool :=
  match s with
  | "" => true
  | String c "" => (N_of_ascii c =? 10)%N
  | _ => false
  end.

(** [( [ab] (\d+) )? $] *)
Definition match_prerelease (s : string)
  : option (option (pre_tag * string)) :=
  match s with
  | String c s' =>
      let tag :=
        if Ascii.eqb c "a" then Some PreA
        else if Ascii.eqb c "b" then Some PreB
        else None in
      match tag with
      | Some t =>
          match digits1 s' with
          | Some (d, rest) => if at_end rest then Some (Some (t, d)) else None
          | None => None
          end
      | None => if at_end s then Some None else None
      end
  | "" => Some None
  end.

(** [( \. (\d+) )? ( [ab] (\d+) )? $] *)
Definition match_patch (s : string)
  : option (option string * option (pre_tag * string)) :=
  match s with
  | String "." s' =>
      match digits1 s' with
      | Some (p, rest) =>
          match match_prerelease rest with
          | Some pre => Some (Some p, pre)
          | None => None
          end
      | None => None
      end
  | _ =>
      match match_prerelease s with
      | Some pre => Some (None, pre)
      | None => None
      end
  end.

(** [version_re.match(vstring)] with
    [version_re = ^(\d+) \. (\d+) (\. (\d+))? ([ab](\d+))?$]
    (VERBOSE, ASCII): the groups 1, 2, 4 and (5, 6). *)
Definition version_re_match (s : string)
  : option (string * string * option string * option (pre_tag * string)) :=
  match digits1 s with
  | Some (major, String "." s1) =>
      match digits1 s1 with
      | Some (minor, s2) =>
          match match_patch s2 with
          | Some (patch, pre) => Some (major, minor, patch, pre)
          | None => None
          end
      | None => None
      end
  | _ => None
  end.

(** [StrictVersion.parse] on a [str]. *)
Definition parse (vstring : string) : result StrictVersion :=
  match version_re_match vstring with
  | None => Raise ValueError
  | Some (major, minor, patch, pre) =>
      let version :=
        match patch with
        | Some p => (int_of_digits major, int_of_digits minor, int_of_digits p)
        | None => (int_of_digits major, int_of_digits minor, 0%N)
        end in
      let prerelease :=
        match pre with
        | Some (t, num) => Some (t, int_of_digits num)
        | None => None
        end in
      Ok (mkStrict version prerelease)
  end.

(** [StrictVersion.__str__] *)
Definition __str__ (self : StrictVersion) : string :=
  let '(major, minor, patch) := sv_version self in
  let vstring :=
    if (patch =? 0)%N then join "." [str_of_N major; str_of_N minor]
    else join "." [str_of_N major; str_of_N minor; str_of_N patch] in
  match sv_prerelease self with
  | Some (t, n) => vstring ++ String (pre_tag_char t) "" ++ str_of_N n
  | None => vstring
  end.

End Strict.

Module Loose.

Import PyStr.

(** The alternatives of [component_re = (\d+ | [a-z]+ | \.)] and the text
    between two matches.  Digits are the ASCII digits: the decimal digits
    of other scripts, which [\d] also matches there, are not modelled. *)
Inductive char_class : Type := Digit | Lower | Dot | Other.

Definition classify (c : ascii) : char_class :=
  if is_digit c then Digit
  else if is_lower c then Lower
  else if Ascii.eqb c "." then Dot
  else Other.

(** Two adjacent characters belong to the same piece of
    [component_re.split]: a run of digits, a run of lower-case letters or
    a run of unmatched characters; every dot is a piece of its own. *)
Definition same_piece (k1 k2 : char_class) : bool :=
  match k1, k2 with
  | Digit, Digit | Lower, Lower | Other, Other => true
  | _, _ => false
  end.

(** The non-empty pieces of [component_re.split(vstring)], in order;
    [cur] is the piece being read. *)
Fixpoint pieces (cur : option (char_class * string)) (s : string)
  : list (char_class * string) :=
  match s with
  | EmptyString =>
      match cur with
      | Some piece => [piece]
      | None => []
      end
  | String c s' =>
      let k := classify c in
      match cur with
      | Some (k0, acc) =>
          if same_piece k0 k then pieces (Some (k0, (acc ++ String c "")%string)) s'
          else (k0, acc) :: pieces (Some (k, String c "")) s'
      | None => pieces (Some (k, String c "")) s'
      end
  end.

(** [x != '.'], then [int(x)] where it does not raise [ValueError]. *)
Definition components (ps : list (char_class * string)) : list component :=
  flat_map (fun '(k, x) =>
              match k with
              | Dot => []
              | Digit => [CInt (int_of_digits x)]
              | Lower | Other => [CStr x]
              end) ps.

(** [LooseVersion.parse] on a [str]: it never raises. *)
Definition parse (vstring : string) : LooseVersion :=
  mkLoose vstring (components (pieces None vstring)).

(** [LooseVersion.__str__] *)
Definition __str__ (self : LooseVersion) : string := lv_vstring self.

End Loose.

(** ** Python values found in a version attribute *)

(** A value that is not a sequence.  [SObject] stands for an object of any
    other class (a float, a submodule named [version], ...), known by what
    [str()] and [bool()] return on it. *)
Inductive scalar : Type :=
  | SNone
  | SBool (b : bool)
  | SInt (z : Z)
  | SStr (s : string)
  | SObject (str_ : string) (truth : bool).

Inductive pyval : Type :=
  | Scalar (a : scalar)
  | Tuple (items : list scalar)
  | PyList (items : list scalar).

Coercion Scalar : scalar >-> pyval.

Definition None_ : pyval := Scalar SNone.

(** [bool(a)] *)
Definition scalar_truthy (a : scalar) : bool :=
  match a with
  | SNone => false
  | SBool b => b
  | SInt z => negb (z =? 0)%Z
  | SStr s => negb (String.eqb s "")
  | SObject _ truth => truth
  end.

(** [bool(v)], the test of [if version:] and [if not version:]. *)
Definition truthy (v : pyval) : bool :=
  match v with
  | Scalar a => scalar_truthy a
  | Tuple items | PyList items =>
      match items with [] => false | _ :: _ => true end
  end.

(** [str(x)] for an element of a version sequence. *)
Definition py_str (a : scalar) : string :=
  match a with
  | SNone => "None"
  | SBool true => "True"
  | SBool false => "False"
  | SInt z => PyStr.str_of_Z z
  | SStr s => s
  | SObject str_ _ => str_
  end.

(** [isinstance(version, tuple) or isinstance(version, list)] *)
Definition is_sequence (v : pyval) : option (list scalar) :=
  match v with
  | Tuple items | PyList items => Some items
  | Scalar _ => None
  end.

(** [StrictVersion(vstring)] for a truthy [vstring]: [Version.__init__]
    calls [self.parse(vstring)], and [version_re.match] raises [TypeError]
    on anything that is not a [str]. *)
Definition StrictVersion_new (vstring : pyval) : result StrictVersion :=
  match vstring with
  | Scalar (SStr s) => Strict.parse s
  | _ => Raise TypeError
  end.

(** [LooseVersion(vstring)] for a truthy [vstring]: [component_re.split]
    raises [TypeError] on anything that is not a [str]. *)
Definition LooseVersion_new (vstring : pyval) : result LooseVersion :=
  match vstring with
  | Scalar (SStr s) => Ok (Loose.parse s)
  | _ => Raise TypeError
  end.

(** ** The values of the registry *)

(** [StrictVersion | LooseVersion | UnknownVersion]; [UNKNOWN] is the one
    instance [ExternalVersions.UNKNOWN] of [UnknownVersion]. *)
Inductive VersionValue : Type :=
  | VStrict (v : StrictVersion)
  | VLoose (v : LooseVersion)
  | UNKNOWN.

(** What a caller compares a value of the registry with.  [OUnknown i] is
    the instance number [i] of [UnknownVersion] and [OObject i] the
    instance number [i] of a class that defines no comparison; two of them
    are the same object when the numbers agree. *)
Inductive operand : Type :=
  | ONone
  | OInt (z : Z)
  | OStr (s : string)
  | OStrict (v : StrictVersion)
  | OLoose (v : LooseVersion)
  | OUnknown (inst : nat)
  | OObject (inst : nat).

(** The instance [ExternalVersions.UNKNOWN = UnknownVersion()]. *)
Definition UNKNOWN_inst : nat := 0.

Module UnknownVersion.

(** [UnknownVersion.__str__] *)
Definition __str__ : string := "UNKNOWN".

(** [other is self], for an instance [self] of [UnknownVersion]. *)
Definition is_self (self : nat) (other : operand) : bool :=
  match other with
  | OUnknown inst => Nat.eqb inst self
  | _ => false
  end.

(** [UnknownVersion.__eq__] *)
Definition __eq__ (self : nat) (other : operand) : result bool :=
  if is_self self other then Ok true
  else Raise TypeError.

End UnknownVersion.

(** [str(v)], as ["{}".format(v)] renders a value of the registry. *)
Definition version_str (v : VersionValue) : string :=
  match v with
  | VStrict s => Strict.__str__ s
  | VLoose l => Loose.__str__ l
  | UNKNOWN => UnknownVersion.__str__
  end.

(** ** Modules, the interpreter state and the monad *)

(** A loaded module (a component handle): its [__name__] and the other
    attributes it has. *)
Record module : Type := mkModule {
  __name__ : string;
  __dict__ : gmap string pyval;
}.

(** What the module does to the world outside: attribute probes, imports
    and metadata queries, oldest first. *)
Inductive event : Type :=
  | EvHasattr (modname attr : string)
  | EvGetattr (modname attr : string)
  | EvImport (name : string)
  | EvMetadata (dist : string).

(** The interpreter state.  [heap] holds the dict objects by reference;
    [importable] is what [__import__(name)] finds and [distributions] what
    [importlib.metadata.version(name)] answers, each a module or string, or
    the exception raised. *)
Record world : Type := mkWorld {
  heap : gmap nat (gmap string VersionValue);
  sys_modules : gmap string module;
  importable : string -> result module;
  distributions : string -> result string;
  trace : list event;
}.

Definition set_heap (h : gmap nat (gmap string VersionValue)) (w : world) : world :=
  mkWorld h (sys_modules w) (importable w) (distributions w) (trace w).

Definition set_sys_modules (sm : gmap string module) (w : world) : world :=
  mkWorld (heap w) sm (importable w) (distributions w) (trace w).

Definition log (ev : event) (w : world) : world :=
  mkWorld (heap w) (sys_modules w) (importable w) (distributions w)
          (trace w ++ [ev]).

(** A computation that reads and writes the world and returns or raises.
    The world an exception leaves behind is kept, as in Python. *)
Definition M (A : Type) : Type := world -> result A * world.

Definition ret {A} (a : A) : M A := fun w => (Ok a, w).

Definition raise {A} (e : exn) : M A := fun w => (Raise e, w).

Definition bind {A B} (m : M A) (k : A -> M B) : M B :=
  fun w =>
    match m w with
    | (Ok a, w') => k a w'
    | (Raise e, w') => (Raise e, w')
    end.

Definition lift {A} (r : result A) : M A := fun w => (r, w).

(** [try: body  except <classes>: handler] *)
Definition try_except {A} (body : M A) (catches : exn -> bool) (handler : M A)
  : M A :=
  fun w =>
    match body w with
    | (Raise e, w') => if catches e then handler w' else (Raise e, w')
    | (Ok a, w') => (Ok a, w')
    end.

Notation "x <- m ;; k" := (bind m (fun x => k))
  (at level 100, m at next level, right associativity).

(** *** Builtins *)

(** [hasattr(module, attr)] *)
Definition hasattr (m : module) (attr : string) : M bool :=
  fun w =>
    (Ok (match __dict__ m !! attr with Some _ => true | None => false end),
     log (EvHasattr (__name__ m) attr) w).

(** [getattr(module, attr)] *)
Definition getattr (m : module) (attr : string) : M pyval :=
  fun w =>
    (match __dict__ m !! attr with
     | Some v => Ok v
     | None => Raise AttributeError
     end,
     log (EvGetattr (__name__ m) attr) w).

(** [importlib.metadata.version(dist)] *)
Definition metadata_version (dist : string) : M string :=
  fun w => (distributions w dist, log (EvMetadata dist) w).

(** [__import__(name)]: a module that loads is entered in [sys.modules]
    under the name asked for; a failed import leaves [sys.modules] as it
    was.  This is the import of a name without dots: for a dotted name the
    interpreter returns the top package, enters the submodule under the
    name asked for, and keeps the parents it loaded even when the import
    fails; these entries under other names are not modelled. *)
Definition __import__ (name : string) : M module :=
  fun w =>
    match importable w name with
    | Ok m =>
        (Ok m, log (EvImport name)
                   (set_sys_modules (<[name := m]> (sys_modules w)) w))
    | Raise e => (Raise e, log (EvImport name) w)
    end.

(** [name in sys.modules] *)
Definition in_sys_modules (name : string) : M bool :=
  fun w =>
    (Ok (match sys_modules w !! name with Some _ => true | None => false end), w).

(** [sys.modules[name]] *)
Definition sys_modules_getitem (name : string) : M module :=
  fun w =>
    (match sys_modules w !! name with
     | Some m => Ok m
     | None => Raise KeyError
     end, w).

(** *** Dict objects *)

Module Dict.

(** The contents of the dict at [l]. *)
Definition contents (l : nat) (w : world) : gmap string VersionValue :=
  default ∅ (heap w !! l).

(** [{}] : a new dict object. *)
Definition new : M nat :=
  fun w =>
    let l := fresh (dom (heap w)) in
    (Ok l, set_heap (<[l := ∅]> (heap w)) w).

(** [k in d] *)
Definition contains (l : nat) (k : string) : M bool :=
  fun w =>
    (Ok (match contents l w !! k with Some _ => true | None => false end), w).

(** [d[k] = v] *)
Definition setitem (l : nat) (k : string) (v : VersionValue) : M unit :=
  fun w => (Ok tt, set_heap (<[l := <[k := v]> (contents l w)]> (heap w)) w).

(** [d[k]] *)
Definition getitem (l : nat) (k : string) : M VersionValue :=
  fun w =>
    (match contents l w !! k with
     | Some v => Ok v
     | None => Raise KeyError
     end, w).

(** [d.get(k, dflt)] *)
Definition get (l : nat) (k : string) (dflt : VersionValue) : M VersionValue :=
  fun w => (Ok (default dflt (contents l w !! k)), w).

(** [del d[k]] *)
Definition delitem (l : nat) (k : string) : M unit :=
  fun w =>
    match contents l w !! k with
    | Some _ => (Ok tt, set_heap (<[l := delete k (contents l w)]> (heap w)) w)
    | None => (Raise KeyError, w)
    end.

(** [d.clear()] *)
Definition clear (l : nat) : M unit :=
  fun w => (Ok tt, set_heap (<[l := ∅]> (heap w)) w).

(** [d.copy()]: a new dict object with the same items. *)
Definition copy (l : nat) : M nat :=
  fun w =>
    let l' := fresh (dom (heap w)) in
    (Ok l', set_heap (<[l' := contents l w]> (heap w)) w).

End Dict.

(** ** ExternalVersions *)

(** An instance: [self._versions] is a reference to its dict. *)
Record ExternalVersions : Type := mkExternalVersions {
  _versions : nat;
}.

(** What [__getitem__] is indexed with: a name or a module. *)
Inductive key : Type :=
  | KStr (modname : string)
  | KModule (m : module).

(** The argument [indent: bool | str] of [dumps]. *)
Inductive indent_arg : Type :=
  | IndentBool (b : bool)
  | IndentStr (s : string).

(** [bool(indent)] *)
Definition indent_truthy (indent : indent_arg) : bool :=
  match indent with
  | IndentBool b => b
  | IndentStr s => negb (String.eqb s "")
  end.

(** [sorted(names)] on strings: ascending in the order of [str], which
    compares character by character. *)
Definition sorted (names : list string) : list string :=
  merge_sort String.le names.

Module ExternalVersions.

(** [def __init__(self)] *)
Definition __init__ : M ExternalVersions :=
  l <- Dict.new ;;
  ret (mkExternalVersions l).

(** The loop [for attr in ('__version__', 'version')] with its [break]:
    [version] keeps its value when no attribute is there. *)
Fixpoint probe (m : module) (attrs : list string) (version : pyval)
  : M pyval :=
  match attrs with
  | [] => ret version
  | attr :: rest =>
      found <- hasattr m attr ;;
      if found then getattr m attr
      else probe m rest version
  end.

(** [{'citeproc': 'citeproc-py'}.get(modname, modname)] *)
Definition distribution_name (modname : string) : string :=
  default modname
    (({[ "citeproc" := "citeproc-py" ]} : gmap string string) !! modname).

(** [def _deduce_version(klass, module)] *)
Definition _deduce_version (m : module) : M VersionValue :=
  version <- probe m ["__version__"; "version"] None_ ;;
  let version :=
    match is_sequence version with
    | Some items => Scalar (SStr (PyStr.join "." (map py_str items)))
    | None => version
    end in
  version <-
    (if negb (truthy version) then
       let modname := __name__ m in
       try_except
         (s <- metadata_version (distribution_name modname) ;;
          ret (Scalar (SStr s)))
         (fun _ => true)
         (ret version)
     else ret version) ;;
  if truthy version then
    try_except
      (v <- lift (StrictVersion_new version) ;; ret (VStrict v))
      is_ValueError
      (v <- lift (LooseVersion_new version) ;; ret (VLoose v))
  else ret UNKNOWN.

(** [def __getitem__(self, module)].  The result [None] is Python's
    [None]; [found] is [None] where the source leaves by [return None]. *)
Definition __getitem__ (self : ExternalVersions) (module_ : key)
  : M (option VersionValue) :=
  let '(modname, module_) :=
    match module_ with
    | KModule m => (__name__ m, Some m)
    | KStr s => (s, None)
    end in
  cached <- Dict.contains (_versions self) modname ;;
  if negb cached then
    found <-
      (match module_ with
       | None =>
           loaded <- in_sys_modules modname ;;
           if negb loaded then
             try_except
               (m <- __import__ modname ;; ret (Some m))
               is_ImportError
               (ret None)
           else
             m <- sys_modules_getitem modname ;; ret (Some m)
       | Some m => ret (Some m)
       end) ;;
    match found with
    | None => ret None
    | Some m =>
        v <- _deduce_version m ;;
        _ <- Dict.setitem (_versions self) modname v ;;
        v <- Dict.get (_versions self) modname UNKNOWN ;;
        ret (Some v)
    end
  else
    v <- Dict.get (_versions self) modname UNKNOWN ;;
    ret (Some v).

(** [def keys(self)]: a view of the registry's own dict. *)
Definition keys (self : ExternalVersions) : M nat :=
  ret (_versions self).

(** [def __contains__(self, item)] *)
Definition __contains__ (self : ExternalVersions) (item : string) : M bool :=
  Dict.contains (_versions self) item.

(** [def versions(self)] *)
Definition versions (self : ExternalVersions) : M nat :=
  Dict.copy (_versions self).

(** *** The report *)

Section Report.

(** [os.linesep], the line terminator of the platform. *)
Variable linesep : string.

(** [["{}={}".format(k, self._versions[k]) for k in names]] *)
Fixpoint format_items (l : nat) (names : list string) : M (list string) :=
  match names with
  | [] => ret []
  | k :: names' =>
      v <- Dict.getitem l k ;;
      rest <- format_items l names' ;;
      ret ((k ++ "=" ++ version_str v)%string :: rest)
  end.

(** [def dumps(self, indent=False, preamble="Versions:")] *)
Definition dumps (self : ExternalVersions) (indent : indent_arg)
    (preamble : string) : M string :=
  fun w =>
    let names := sorted (map fst (map_to_list (Dict.contents (_versions self) w))) in
    (items <- format_items (_versions self) names ;;
     let out := preamble in
     if indent_truthy indent then
       match indent with
       | IndentBool true =>
           let indent_ := " " in
           ret (out ++ PyStr.join (linesep ++ indent_) ("" :: items) ++ linesep)%string
       | IndentStr indent_ =>
           ret (out ++ PyStr.join (linesep ++ indent_) ("" :: items) ++ linesep)%string
       | IndentBool false => raise TypeError
       end
     else
       ret (out ++ " " ++ PyStr.join " " items)%string) w.

End Report.

End ExternalVersions.

(** ** Comparisons *)

Definition operand_of (v : VersionValue) : operand :=
  match v with
  | VStrict s => OStrict s
  | VLoose l => OLoose l
  | UNKNOWN => OUnknown UNKNOWN_inst
  end.

Inductive cmp_op : Type := OpLt | OpLe | OpGt | OpGe.

(** The operator whose method is tried on the right operand. *)
Definition reflected (op : cmp_op) : cmp_op :=
  match op with
  | OpLt => OpGt
  | OpLe => OpGe
  | OpGt => OpLt
  | OpGe => OpLe
  end.

(** What a comparison method returns. *)
Inductive method_result : Type :=
  | NotImplemented
  | Returns (b : bool).

(** What [_cmp] returns: [NotImplemented], an int, or [None] when it falls
    off its end. *)
Inductive cmp_value : Type :=
  | CmpNotImplemented
  | CmpInt (z : Z)
  | CmpNone.

Module Version.

(** [StrictVersion._cmp] *)
Definition Strict_cmp (self : StrictVersion) (other : operand)
  : result cmp_value :=
  let other_ :=
    match other with
    | OStr "" => Raise AttributeError
    | OStr s => result_bind (Strict.parse s) (fun o => Ok (Some o))
    | OStrict o => Ok (Some o)
    | _ => Ok None
    end in
  result_bind other_ (fun o =>
    match o with
    | None => Ok CmpNotImplemented
    | Some other =>
        let '(a1, a2, a3) := sv_version self in
        let '(b1, b2, b3) := sv_version other in
        let by_version :=
          match (a1 ?= b1)%N with
          | Eq => match (a2 ?= b2)%N with
                  | Eq => (a3 ?= b3)%N
                  | c => c
                  end
          | c => c
          end in
        match by_version with
        | Lt => Ok (CmpInt (-1))
        | Gt => Ok (CmpInt 1)
        | Eq =>
            match sv_prerelease self, sv_prerelease other with
            | None, None => Ok (CmpInt 0)
            | Some _, None => Ok (CmpInt (-1))
            | None, Some _ => Ok (CmpInt 1)
            | Some (t1, n1), Some (t2, n2) =>
                match Ascii.compare (pre_tag_char t1) (pre_tag_char t2) with
                | Eq => match (n1 ?= n2)%N with
                        | Eq => Ok (CmpInt 0)
                        | Lt => Ok (CmpInt (-1))
                        | Gt => Ok (CmpInt 1)
                        end
                | Lt => Ok (CmpInt (-1))
                | Gt => Ok (CmpInt 1)
                end
            end
        end
    end).

(** [x == y] on two components. *)
Definition component_eqb (x y : component) : bool :=
  match x, y with
  | CInt a, CInt b => (a =? b)%N
  | CStr a, CStr b => String.eqb a b
  | _, _ => false
  end.

(** [x < y] on two components: an int and a str do not compare. *)
Definition component_ltb (x y : component) : result bool :=
  match x, y with
  | CInt a, CInt b => Ok (a <? b)%N
  | CStr a, CStr b => Ok (String.ltb a b)
  | _, _ => Raise TypeError
  end.

(** [a == b] on two lists of components. *)
Fixpoint list_eqb (a b : list component) : bool :=
  match a, b with
  | [], [] => true
  | x :: a', y :: b' => component_eqb x y && list_eqb a' b'
  | _, _ => false
  end.

(** [a < b] on two lists of components: the first items that differ
    decide, a proper prefix is smaller. *)
Fixpoint list_ltb (a b : list component) : result bool :=
  match a, b with
  | [], [] => Ok false
  | [], _ :: _ => Ok true
  | _ :: _, [] => Ok false
  | x :: a', y :: b' =>
      if component_eqb x y then list_ltb a' b' else component_ltb x y
  end.

(** [LooseVersion._cmp] *)
Definition Loose_cmp (self : LooseVersion) (other : operand)
  : result cmp_value :=
  let other_ :=
    match other with
    | OStr "" => Raise AttributeError
    | OStr s => Ok (Some (Loose.parse s))
    | OLoose o => Ok (Some o)
    | _ => Ok None
    end in
  result_bind other_ (fun o =>
    match o with
    | None => Ok CmpNotImplemented
    | Some other =>
        if list_eqb (lv_version self) (lv_version other) then Ok (CmpInt 0)
        else
          result_bind (list_ltb (lv_version self) (lv_version other)) (fun lt =>
            if lt then Ok (CmpInt (-1))
            else
              result_bind (list_ltb (lv_version other) (lv_version self)) (fun gt =>
                if gt then Ok (CmpInt 1) else Ok CmpNone))
    end).

(** [c == 0] *)
Definition eq_zero (c : cmp_value) : result method_result :=
  match c with
  | CmpNotImplemented => Ok NotImplemented
  | CmpInt z => Ok (Returns (z =? 0)%Z)
  | CmpNone => Ok (Returns false)
  end.

(** [c < 0], [c <= 0], [c > 0], [c >= 0]; [None] does not compare with
    an int. *)
Definition order_zero (op : cmp_op) (c : cmp_value) : result method_result :=
  match c with
  | CmpNotImplemented => Ok NotImplemented
  | CmpInt z =>
      Ok (Returns match op with
                  | OpLt => (z <? 0)%Z
                  | OpLe => (z <=? 0)%Z
                  | OpGt => (z >? 0)%Z
                  | OpGe => (z >=? 0)%Z
                  end)
  | CmpNone => Raise TypeError
  end.

(** [Version.__eq__]: [c = self._cmp(other)], [NotImplemented] passed
    on. *)
Definition __eq__ (c : result cmp_value) : result method_result :=
  result_bind c eq_zero.

(** [Version.__lt__], [__le__], [__gt__], [__ge__] *)
Definition __order__ (op : cmp_op) (c : result cmp_value)
  : result method_result :=
  result_bind c (order_zero op).

End Version.

(** [a is b] *)
Definition is_ (a b : operand) : bool :=
  match a, b with
  | ONone, ONone => true
  | OUnknown i, OUnknown j | OObject i, OObject j => Nat.eqb i j
  | _, _ => false
  end.

(** [type(self).__eq__(self, other)].  [None] and plain objects inherit
    [object.__eq__], which answers only for the object itself. *)
Definition eq_method (self other : operand) : result method_result :=
  match self with
  | OUnknown inst =>
      result_bind (UnknownVersion.__eq__ inst other) (fun b => Ok (Returns b))
  | OStrict v => Version.__eq__ (Version.Strict_cmp v other)
  | OLoose v => Version.__eq__ (Version.Loose_cmp v other)
  | OInt a =>
      match other with
      | OInt b => Ok (Returns (a =? b)%Z)
      | _ => Ok NotImplemented
      end
  | OStr a =>
      match other with
      | OStr b => Ok (Returns (String.eqb a b))
      | _ => Ok NotImplemented
      end
  | ONone | OObject _ =>
      Ok (if is_ self other then Returns true else NotImplemented)
  end.

(** [type(self).__lt__(self, other)] and the three others.
    [UnknownVersion] defines none of them and inherits those of [object],
    which return [NotImplemented]. *)
Definition order_method (op : cmp_op) (self other : operand)
  : result method_result :=
  match self with
  | OUnknown _ | ONone | OObject _ => Ok NotImplemented
  | OStrict v => Version.__order__ op (Version.Strict_cmp v other)
  | OLoose v => Version.__order__ op (Version.Loose_cmp v other)
  | OInt a =>
      match other with
      | OInt b =>
          Ok (Returns match op with
                      | OpLt => (a <? b)%Z
                      | OpLe => (a <=? b)%Z
                      | OpGt => (a >? b)%Z
                      | OpGe => (a >=? b)%Z
                      end)
      | _ => Ok NotImplemented
      end
  | OStr a =>
      match other with
      | OStr b =>
          Ok (Returns match op with
                      | OpLt => String.ltb a b
                      | OpLe => String.leb a b
                      | OpGt => String.ltb b a
                      | OpGe => String.leb b a
                      end)
      | _ => Ok NotImplemented
      end
  end.

(** [a == b]: the method of the left operand, then the one of the right
    operand, then identity.  (No class here derives from another one, so
    the right operand never goes first.) *)
Definition py_eq (a b : operand) : result bool :=
  result_bind (eq_method a b) (fun r =>
    match r with
    | Returns x => Ok x
    | NotImplemented =>
        result_bind (eq_method b a) (fun r' =>
          match r' with
          | Returns x => Ok x
          | NotImplemented => Ok (is_ a b)
          end)
    end).

(** [a < b], [a <= b], [a > b], [a >= b]: the method of the left operand,
    then the reflected method of the right operand, then [TypeError]. *)
Definition py_order (op : cmp_op) (a b : operand) : result bool :=
  result_bind (order_method op a b) (fun r =>
    match r with
    | Returns x => Ok x
    | NotImplemented =>
        result_bind (order_method (reflected op) b a) (fun r' =>
          match r' with
          | Returns x => Ok x
          | NotImplemented => Raise TypeError
          end)
    end).

(** [object.__ne__(self, other)], which every class here inherits: the
    result of [__eq__] inverted, [NotImplemented] passed on. *)
Definition ne_method (self other : operand) : result method_result :=
  result_bind (eq_method self other) (fun r =>
    match r with
    | Returns b => Ok (Returns (negb b))
    | NotImplemented => Ok NotImplemented
    end).

(** [a != b]: the method of the left operand, then the one of the right
    operand, then identity. *)
Definition py_ne (a b : operand) : result bool :=
  result_bind (ne_method a b) (fun r =>
    match r with
    | Returns x => Ok x
    | NotImplemented =>
        result_bind (ne_method b a) (fun r' =>
          match r' with
          | Returns x => Ok x
          | NotImplemented => Ok (negb (is_ a b))
          end)
    end).

(** ** Vocabulary of the statements *)

(** The world [w] after the events [evs]. *)
Definition emit (evs : list event) (w : world) : world :=
  mkWorld (heap w) (sys_modules w) (importable w) (distributions w)
          (trace w ++ evs).

(** The entry of the registry for [name], if any. *)
Definition cached (self : ExternalVersions) (w : world) (name : string)
  : option VersionValue :=
  Dict.contents (_versions self) w !! name.

(** The name a key stands for. *)
Definition key_name (k : key) : string :=
  match k with
  | KStr s => s
  | KModule m => __name__ m
  end.

(** The value of the first of [__version__] and [version] that the module
    has, [None] when it has neither. *)
Definition attribute_value (m : module) : pyval :=
  match __dict__ m !! "__version__" with
  | Some v => v
  | None =>
      match __dict__ m !! "version" with
      | Some v => v
      | None => None_
      end
  end.

(** The probes that find it. *)
Definition probe_events (m : module) : list event :=
  let n := __name__ m in
  match __dict__ m !! "__version__" with
  | Some _ => [EvHasattr n "__version__"; EvGetattr n "__version__"]
  | None =>
      match __dict__ m !! "version" with
      | Some _ => [EvHasattr n "__version__"; EvHasattr n "version";
                   EvGetattr n "version"]
      | None => [EvHasattr n "__version__"; EvHasattr n "version"]
      end
  end.

(** A sequence is replaced by its parts joined with a dot. *)
Definition joined (v : pyval) : pyval :=
  match is_sequence v with
  | Some items => Scalar (SStr (PyStr.join "." (map py_str items)))
  | None => v
  end.

(** The module has an attribute that gives a version: the joined value is
    truthy. *)
Definition usable (m : module) : bool := truthy (joined (attribute_value m)).

(** A version string parsed: strictly where the strict grammar accepts it,
    loosely otherwise. *)
Definition parse_version (s : string) : VersionValue :=
  match Strict.parse s with
  | Ok v => VStrict v
  | Raise _ => VLoose (Loose.parse s)
  end.

(** What the metadata lookup answers for the module [m]. *)
Definition metadata_answer (m : module) (w : world) : result string :=
  distributions w (ExternalVersions.distribution_name (__name__ m)).

(** What the answer of the metadata lookup resolves to. *)
Definition from_metadata (answer : result string) : VersionValue :=
  match answer with
  | Ok s => if String.eqb s "" then UNKNOWN else parse_version s
  | Raise _ => UNKNOWN
  end.

(** The non-empty version string that resolution obtains, from the
    attribute or else from the metadata, if it obtains one. *)
Definition obtained_string (m : module) (w : world) : option string :=
  if usable m then
    match joined (attribute_value m) with
    | Scalar (SStr s) => Some s
    | _ => None
    end
  else
    match metadata_answer m w with
    | Ok s => if String.eqb s "" then None else Some s
    | Raise _ => None
    end.

(** What [__getitem__] does with the outcome of [_deduce_version]: a
    version is stored under [name] and returned, an exception passes. *)
Definition record (self : ExternalVersions) (name : string)
    (out : result VersionValue * world) : result (option VersionValue) * world :=
  match out with
  | (Ok v, w') =>
      (Ok (Some v),
       set_heap (<[_versions self :=
                     <[name := v]> (Dict.contents (_versions self) w')]> (heap w')) w')
  | (Raise e, w') => (Raise e, w')
  end.

(** The worlds [w1] and [w2] are the same but for dict objects other than
    the registry's own. *)
Definition agree (self : ExternalVersions) (w1 w2 : world) : Prop :=
  Dict.contents (_versions self) w1 = Dict.contents (_versions self) w2
  /\ sys_modules w1 = sys_modules w2
  /\ importable w1 = importable w2
  /\ distributions w1 = distributions w2
  /\ trace w1 = trace w2.

(** The world after the lookups of [ks], in order. *)
Fixpoint lookups (self : ExternalVersions) (ks : list key) (w : world) : world :=
  match ks with
  | [] => w
  | k :: ks' => lookups self ks' (ExternalVersions.__getitem__ self k w).2
  end.

(** A change that a caller makes to a mapping it holds. *)
Inductive mutation : Type :=
  | MSet (k : string) (v : VersionValue)
  | MDel (k : string)
  | MClear.

Definition mutate (l : nat) (mu : mutation) : M unit :=
  match mu with
  | MSet k v => Dict.setitem l k v
  | MDel k => Dict.delitem l k
  | MClear => Dict.clear l
  end.

(** What a caller does once it holds the registry and a mapping at [l]:
    it looks a key up, asks whether a name is there, or changes the
    mapping. *)
Inductive action : Type :=
  | Lookup (k : key)
  | Contains (name : string)
  | Mutate (mu : mutation).

(** What the caller sees. *)
Inductive observation : Type :=
  | Looked (r : result (option VersionValue))
  | Contained (r : result bool).

(** The observations of the actions [acts], in order. *)
Fixpoint observe (self : ExternalVersions) (l : nat) (acts : list action)
    (w : world) : list observation :=
  match acts with
  | [] => []
  | Lookup k :: rest =>
      Looked (ExternalVersions.__getitem__ self k w).1
      :: observe self l rest (ExternalVersions.__getitem__ self k w).2
  | Contains name :: rest =>
      Contained (ExternalVersions.__contains__ self name w).1
      :: observe self l rest (ExternalVersions.__contains__ self name w).2
  | Mutate mu :: rest => observe self l rest (mutate l mu w).2
  end.

Definition is_mutation (a : action) : bool :=
  match a with
  | Mutate _ => true
  | _ => false
  end.

(** The same actions with the changes to the mapping left out. *)
Definition without_mutations (acts : list action) : list action :=
  List.filter (fun a => negb (is_mutation a)) acts.

(** All the characters of [s] are digits. *)
Fixpoint all_digits (s : string) : bool :=
  match s with
  | EmptyString => true
  | String c s' => PyStr.is_digit c && all_digits s'
  end.

(** [u] is empty or starts with a character that is not a digit. *)
Definition stops (u : string) : bool :=
  match u with
  | EmptyString => true
  | String c _ => negb (PyStr.is_digit c)
  end.

(** How [dumps] prints an item of the registry. *)
Definition entry (kv : string * VersionValue) : string :=
  (kv.1 ++ "=" ++ version_str kv.2)%string.

(** Items in ascending order of their names. *)
Definition sorted_by_name (kvs : list (string * VersionValue)) : Prop :=
  Sorted (fun a b => String.le a.1 b.1) kvs.

(** One line for each entry: the indent, the entry, the line terminator. *)
Fixpoint indented_lines (linesep indent_ : string) (entries : list string)
  : string :=
  match entries with
  | [] => ""
  | e :: rest =>
      (indent_ ++ e ++ linesep ++ indented_lines linesep indent_ rest)%string
  end.

(** The indent that a truthy [indent] stands for. *)
Definition indent_string (indent : indent_arg) : string :=
  match indent with
  | IndentBool _ => " "
  | IndentStr s => s
  end.

(** The event is a call of [__import__]. *)
Definition is_import (ev : event) : bool :=
  match ev with
  | EvImport _ => true
  | _ => false
  end.

(** The event is a metadata query. *)
Definition is_metadata (ev : event) : bool :=
  match ev with
  | EvMetadata _ => true
  | _ => false
  end.

(** The events of the resolution of [m]: the probes, then the metadata
    query when no attribute is usable. *)
Definition resolution_events (m : module) : list event :=
  if usable m then probe_events m
  else probe_events m
       ++ [EvMetadata (ExternalVersions.distribution_name (__name__ m))].

(** The name [n] is in the registry or among the loaded modules. *)
Definition known (self : ExternalVersions) (w : world) (n : string) : Prop :=
  is_Some (cached self w n) \/ is_Some (sys_modules w !! n).

(** Where [__getitem__] takes the module to resolve for the key [k] in
    the world [w], and the world [w0] it resolves it in: the handle
    itself, the loaded module of that name, or the module just imported. *)
Definition handle_from (k : key) (w : world) (m : module) (w0 : world) : Prop :=
  match k with
  | KModule m' => m = m' /\ w0 = w
  | KStr n =>
      (sys_modules w !! n = Some m /\ w0 = w)
      \/ (sys_modules w !! n = None /\ importable w n = Ok m
          /\ w0 = log (EvImport n)
                     (set_sys_modules (<[n := m]> (sys_modules w)) w))
  end.

(** ** Concrete modules and worlds *)

Module Sample.

(** Nothing can be imported, no distribution is installed, one empty
    dict at reference 0. *)
Definition bare : world :=
  mkWorld {[ 0 := ∅ ]} ∅
          (fun _ => Raise ImportError)
          (fun _ => Raise PackageNotFoundError)
          [].

(** The registry whose dict is at reference 0. *)
Definition registry : ExternalVersions := mkExternalVersions 0.

(** Only the distribution [citeproc-py] is installed, at 0.6.0. *)
Definition with_citeproc : world :=
  mkWorld {[ 0 := ∅ ]} ∅
          (fun _ => Raise ImportError)
          (fun dist => if String.eqb dist "citeproc-py" then Ok "0.6.0"
                       else Raise PackageNotFoundError)
          [].

(** The registry holds [pkg] at 1.4.2; [pkg] is not loaded and cannot
    be imported. *)
Definition with_pkg_cached : world :=
  mkWorld {[ 0 := {[ "pkg" := VStrict (mkStrict (1, 4, 2)%N None) ]} ]} ∅
          (fun _ => Raise ImportError)
          (fun _ => Raise PackageNotFoundError)
          [].

(** The registry holds [a] at 1.0.0 and [b] unknown. *)
Definition with_a_and_b : world :=
  mkWorld {[ 0 := {[ "a" := VStrict (mkStrict (1, 0, 0)%N None);
                     "b" := UNKNOWN ]} ]} ∅
          (fun _ => Raise ImportError)
          (fun _ => Raise PackageNotFoundError)
          [].

(** The line terminator of POSIX platforms. *)
Definition lf : string := String (ascii_of_N 10) "".

Definition mod_tuple : module :=
  mkModule "pkg" {[ "__version__" := Tuple [SInt 1; SInt 4; SInt 2] ]}.

Definition mod_beta : module :=
  mkModule "pkg" {[ "version" := Scalar (SStr "2021.08-beta") ]}.

Definition mod_int : module :=
  mkModule "pkg" {[ "__version__" := Scalar (SInt 3) ]}.

Definition mod_empty_dunder : module :=
  mkModule "pkg" {[ "__version__" := Scalar (SStr "");
                    "version" := Scalar (SStr "1.2.3") ]}.

Definition mod_citeproc : module := mkModule "citeproc" ∅.


(** [pkg] is loaded, as [mod_tuple]. *)
Definition with_pkg_loaded : world :=
  mkWorld {[ 0 := ∅ ]} {[ "pkg" := mod_tuple ]}
          (fun _ => Raise ImportError)
          (fun _ => Raise PackageNotFoundError)
          [].

(** [pkg] can be imported, as [mod_tuple]; nothing is loaded. *)
Definition with_pkg_installed : world :=
  mkWorld {[ 0 := ∅ ]} ∅
          (fun name => if String.eqb name "pkg" then Ok mod_tuple
                       else Raise ImportError)
          (fun _ => Raise PackageNotFoundError)
          [].

(** A module with a docstring and nothing that gives a version. *)
Definition mod_plain : module :=
  mkModule "plain" {[ "__doc__" := Scalar (SStr "no version here") ]}.

(** [os.path] is loaded, and the module calls itself [posixpath]. *)
Definition mod_posixpath : module := mkModule "posixpath" ∅.

Definition with_os_path_loaded : world :=
  mkWorld {[ 0 := ∅ ]} {[ "os.path" := mod_posixpath ]}
          (fun _ => Raise ImportError)
          (fun _ => Raise PackageNotFoundError)
          [].

End Sample.

(** * Properties *)

(** ** The library on concrete inputs *)

Example strict_parse_142 :
  Strict.parse "1.4.2" = Ok (mkStrict (1, 4, 2)%N None).
Proof. reflexivity. Qed.

Example strict_parse_newline :
  Strict.parse (String "1" (String "." (String "0" (String (ascii_of_N 10) ""))))
  = Ok (mkStrict (1, 0, 0)%N None).
Proof. reflexivity. Qed.

Example strict_parse_beta : Strict.parse "2021.08-beta" = Raise ValueError.
Proof. reflexivity. Qed.

Example strict_str_100 :
  result_bind (Strict.parse "1.0.0") (fun v => Ok (Strict.__str__ v)) = Ok "1.0".
Proof. reflexivity. Qed.

Example strict_str_pre :
  result_bind (Strict.parse "1.0.4b1") (fun v => Ok (Strict.__str__ v)) = Ok "1.0.4b1".
Proof. reflexivity. Qed.

Example loose_parse_beta :
  lv_version (Loose.parse "2021.08-beta")
  = [CInt 2021; CInt 8; CStr "-"; CStr "beta"].
Proof. reflexivity. Qed.

Example loose_parse_mixed :
  lv_version (Loose.parse "1.5.2b2+RC") = [CInt 1; CInt 5; CInt 2; CStr "b"; CInt 2; CStr "+RC"].
Proof. reflexivity. Qed.

Example order_strict_strict :
  py_order OpLt (OStrict (mkStrict (1, 0, 0)%N None))
                (OStrict (mkStrict (1, 4, 2)%N None)) = Ok true.
Proof. reflexivity. Qed.

Example order_strict_str :
  py_order OpGt (OStrict (mkStrict (1, 0, 0)%N None)) (OStr "0.1") = Ok true.
Proof. reflexivity. Qed.

Example order_str_strict :
  py_order OpLt (OStr "0.1") (OStrict (mkStrict (1, 0, 0)%N None)) = Ok true.
Proof. reflexivity. Qed.

Example order_loose_mixed :
  py_order OpLt (OLoose (Loose.parse "1.a")) (OLoose (Loose.parse "1.1"))
  = Raise TypeError.
Proof. reflexivity. Qed.

Example eq_int_str : py_eq (OInt 1) (OStr "1") = Ok false.
Proof. reflexivity. Qed.

(** ** The monad and the builtins *)

Lemma emit_nil w : emit [] w = w.
Proof. destruct w; unfold emit; simpl. by rewrite app_nil_r. Qed.

Lemma log_emit ev evs w : log ev (emit evs w) = emit (evs ++ [ev]) w.
Proof. unfold log, emit; simpl. by rewrite app_assoc. Qed.

Lemma emit_emit evs1 evs2 w : emit evs2 (emit evs1 w) = emit (evs1 ++ evs2) w.
Proof. unfold emit; simpl. by rewrite app_assoc. Qed.

Lemma log_as_emit ev w : log ev w = emit [ev] w.
Proof. reflexivity. Qed.

(** The probing loop returns the first attribute present and does exactly
    the probes of [probe_events]. *)
Lemma probe_spec m w :
  ExternalVersions.probe m ["__version__"; "version"] None_ w
  = (Ok (attribute_value m), emit (probe_events m) w).
Proof.
  unfold attribute_value, probe_events. simpl.
  unfold bind, hasattr, getattr, ret.
  destruct (__dict__ m !! "__version__") as [v|]; simpl.
  - by rewrite !log_as_emit, emit_emit.
  - destruct (__dict__ m !! "version") as [v|]; simpl;
      by rewrite !log_as_emit, !emit_emit.
Qed.

(** The strict parser raises nothing but [ValueError]. *)
Lemma Strict_parse_raises s e : Strict.parse s = Raise e -> e = ValueError.
Proof.
  unfold Strict.parse.
  destruct (Strict.version_re_match s) as [[[[? ?] ?] ?]|]; congruence.
Qed.

(** Resolution, in one equation: the probes, then the metadata query when
    no attribute is usable, then the parse. *)
Lemma deduce_version_usable m w :
  usable m = true ->
  ExternalVersions._deduce_version m w
  = (match joined (attribute_value m) with
     | Scalar (SStr s) => Ok (parse_version s)
     | _ => Raise TypeError
     end,
     emit (probe_events m) w).
Proof.
  intros Hu. unfold ExternalVersions._deduce_version, bind at 1. rewrite probe_spec.
  fold (joined (attribute_value m)). unfold usable in Hu.
  rewrite Hu. simpl. unfold bind at 1. unfold ret at 1.
  rewrite Hu. unfold try_except, bind, lift, ret, parse_version.
  destruct (joined (attribute_value m)) as [[| | |s|]| |]; simpl; try reflexivity.
  destruct (Strict.parse s) as [v|e] eqn:Hp; [reflexivity|].
  by rewrite (Strict_parse_raises _ _ Hp).
Qed.

Lemma deduce_version_metadata m w :
  usable m = false ->
  ExternalVersions._deduce_version m w
  = (Ok (from_metadata (metadata_answer m w)),
     emit (probe_events m ++ [EvMetadata (ExternalVersions.distribution_name (__name__ m))]) w).
Proof.
  intros Hu. unfold metadata_answer.
  unfold ExternalVersions._deduce_version, bind at 1. rewrite probe_spec.
  fold (joined (attribute_value m)). unfold usable in Hu.
  rewrite Hu. simpl. unfold bind at 1, try_except at 1, bind at 1.
  unfold metadata_version. simpl. rewrite log_emit.
  destruct (distributions w (ExternalVersions.distribution_name (__name__ m)))
    as [s|e]; simpl.
  - unfold ret at 1. simpl. destruct (String.eqb s "") eqn:Hs; simpl.
    + reflexivity.
    + unfold try_except, bind, lift, ret, parse_version. simpl.
      destruct (Strict.parse s) as [v|e] eqn:Hp; [reflexivity|].
      by rewrite (Strict_parse_raises _ _ Hp).
  - unfold ret at 1. rewrite Hu. reflexivity.
Qed.

(** ** Resolution *)

Lemma joined_falsy v : truthy v = false -> truthy (joined v) = false.
Proof. destruct v as [a|[|x l]|[|x l]]; simpl; intros; done. Qed.

Lemma distribution_name_spec n :
  ExternalVersions.distribution_name n
  = if String.eqb n "citeproc" then "citeproc-py" else n.
Proof.
  unfold ExternalVersions.distribution_name.
  destruct (String.eqb_spec n "citeproc") as [->|Hne]; [reflexivity|].
  rewrite lookup_singleton_ne; [reflexivity|congruence].
Qed.

(** C10: when [__version__] is present with a falsy value, resolution
    probes nothing else (no [hasattr] or [getattr] of [version]), goes on
    to the metadata query, and answers what the metadata gives, whatever the
    module has under [version]. *)
Theorem falsy_dunder_version_stops_probing (m : module) (v : pyval) (w : world) :
  __dict__ m !! "__version__" = Some v ->
  truthy v = false ->
  ExternalVersions._deduce_version m w
  = (Ok (from_metadata (metadata_answer m w)),
     emit [EvHasattr (__name__ m) "__version__";
           EvGetattr (__name__ m) "__version__";
           EvMetadata (ExternalVersions.distribution_name (__name__ m))] w)
  /\ (forall v' : pyval,
        (ExternalVersions._deduce_version
           (mkModule (__name__ m) (<["version" := v']> (__dict__ m))) w).1
        = (ExternalVersions._deduce_version m w).1).
Proof.
  intros Hd Hv.
  assert (Hstep : forall m0, __dict__ m0 !! "__version__" = Some v ->
    ExternalVersions._deduce_version m0 w
    = (Ok (from_metadata (metadata_answer m0 w)),
       emit [EvHasattr (__name__ m0) "__version__";
             EvGetattr (__name__ m0) "__version__";
             EvMetadata (ExternalVersions.distribution_name (__name__ m0))] w)).
  { intros m0 H0. rewrite deduce_version_metadata.
    - unfold probe_events. by rewrite H0.
    - unfold usable, attribute_value. rewrite H0. by apply joined_falsy. }
  split; [by apply Hstep|].
  intros v'. rewrite (Hstep m Hd), Hstep; [reflexivity|].
  simpl. by rewrite lookup_insert_ne.
Qed.

Lemma falsy_dunder_version_stops_probing_witness :
  ExternalVersions._deduce_version Sample.mod_empty_dunder Sample.with_citeproc
  = (Ok (from_metadata (metadata_answer Sample.mod_empty_dunder Sample.with_citeproc)),
     emit [EvHasattr (__name__ Sample.mod_empty_dunder) "__version__";
           EvGetattr (__name__ Sample.mod_empty_dunder) "__version__";
           EvMetadata (ExternalVersions.distribution_name (__name__ Sample.mod_empty_dunder))]
          Sample.with_citeproc)
  /\ (forall v' : pyval,
        (ExternalVersions._deduce_version
           (mkModule (__name__ Sample.mod_empty_dunder)
                     (<["version" := v']> (__dict__ Sample.mod_empty_dunder)))
           Sample.with_citeproc).1
        = (ExternalVersions._deduce_version Sample.mod_empty_dunder Sample.with_citeproc).1).
Proof.
  apply (falsy_dunder_version_stops_probing
           Sample.mod_empty_dunder (Scalar (SStr "")) Sample.with_citeproc).
  - vm_compute. reflexivity.
  - reflexivity.
Defined.

(** C6: a module with no usable version attribute has its metadata asked
    for, under its own name, or under [citeproc-py] when the name is
    [citeproc]; a query that raises, whatever it raises, gives [UNKNOWN]
    and raises nothing; a query that answers gives the answer parsed
    ([UNKNOWN] for an empty answer). *)
Theorem metadata_fallback (m : module) (w : world) :
  usable m = false ->
  let dist := ExternalVersions.distribution_name (__name__ m) in
  dist = (if String.eqb (__name__ m) "citeproc" then "citeproc-py" else __name__ m)
  /\ (ExternalVersions._deduce_version m w).2 = emit (probe_events m ++ [EvMetadata dist]) w
  /\ (forall e, distributions w dist = Raise e ->
        (ExternalVersions._deduce_version m w).1 = Ok UNKNOWN)
  /\ (forall s, distributions w dist = Ok s ->
        (ExternalVersions._deduce_version m w).1
        = Ok (if String.eqb s "" then UNKNOWN else parse_version s)).
Proof.
  intros Hu dist. rewrite (deduce_version_metadata _ _ Hu).
  unfold metadata_answer. fold dist. simpl.
  split; [apply distribution_name_spec|].
  split; [reflexivity|].
  split; intros ? ->; reflexivity.
Qed.

Lemma metadata_fallback_witness :
  let dist := ExternalVersions.distribution_name (__name__ Sample.mod_citeproc) in
  dist = (if String.eqb (__name__ Sample.mod_citeproc) "citeproc"
          then "citeproc-py" else __name__ Sample.mod_citeproc)
  /\ (ExternalVersions._deduce_version Sample.mod_citeproc Sample.with_citeproc).2
     = emit (probe_events Sample.mod_citeproc ++ [EvMetadata dist])
            Sample.with_citeproc
  /\ (forall e, distributions Sample.with_citeproc dist = Raise e ->
        (ExternalVersions._deduce_version Sample.mod_citeproc Sample.with_citeproc).1
        = Ok UNKNOWN)
  /\ (forall s, distributions Sample.with_citeproc dist = Ok s ->
        (ExternalVersions._deduce_version Sample.mod_citeproc Sample.with_citeproc).1
        = Ok (if String.eqb s "" then UNKNOWN else parse_version s)).
Proof.
  apply (metadata_fallback Sample.mod_citeproc Sample.with_citeproc).
  reflexivity.
Defined.

(** The two samples of the specification: [citeproc] is found under
    [citeproc-py], and a metadata lookup that fails for all names gives
    [UNKNOWN]. *)
Example citeproc_resolves :
  (ExternalVersions._deduce_version Sample.mod_citeproc Sample.with_citeproc).1
  = Ok (parse_version "0.6.0").
Proof. reflexivity. Qed.

Example no_metadata_gives_unknown :
  (ExternalVersions._deduce_version Sample.mod_citeproc Sample.bare).1 = Ok UNKNOWN.
Proof. reflexivity. Qed.



(** C5: when resolution obtains a non-empty version string that the strict
    grammar rejects, it answers the loose version of that string and raises
    nothing; the loose parser accepts every string; ["2021.08-beta"] is
    rejected by the strict grammar and resolves to a loose version, which
    is not [UNKNOWN]. *)
Theorem strict_failure_falls_back_to_loose (m : module) (w : world) (s : string) (e : exn) :
  obtained_string m w = Some s ->
  Strict.parse s = Raise e ->
  (ExternalVersions._deduce_version m w).1 = Ok (VLoose (Loose.parse s))
  /\ VLoose (Loose.parse s) <> UNKNOWN
  /\ (forall s' : string, LooseVersion_new (Scalar (SStr s')) = Ok (Loose.parse s'))
  /\ (s = "2021.08-beta" ->
      lv_version (Loose.parse s) = [CInt 2021; CInt 8; CStr "-"; CStr "beta"]).
Proof.
  intros Hob Hp. unfold obtained_string in Hob.
  split; [|split; [discriminate|split; [reflexivity|by intros ->]]].
  destruct (usable m) eqn:Hu.
  - rewrite (deduce_version_usable _ _ Hu).
    destruct (joined (attribute_value m)) as [[| | |s0|]| |]; try discriminate.
    injection Hob as ->. unfold parse_version. by rewrite Hp.
  - rewrite (deduce_version_metadata _ _ Hu). simpl.
    destruct (metadata_answer m w) as [s0|];
      [|discriminate].
    simpl. destruct (String.eqb s0 ""); [discriminate|].
    injection Hob as ->. unfold parse_version. by rewrite Hp.
Qed.

Lemma strict_failure_falls_back_to_loose_witness :
  (ExternalVersions._deduce_version Sample.mod_beta Sample.bare).1
  = Ok (VLoose (Loose.parse "2021.08-beta"))
  /\ VLoose (Loose.parse "2021.08-beta") <> UNKNOWN
  /\ (forall s' : string, LooseVersion_new (Scalar (SStr s')) = Ok (Loose.parse s'))
  /\ ("2021.08-beta" = "2021.08-beta" ->
      lv_version (Loose.parse "2021.08-beta")
      = [CInt 2021; CInt 8; CStr "-"; CStr "beta"]).
Proof.
  apply (strict_failure_falls_back_to_loose
           Sample.mod_beta Sample.bare "2021.08-beta" ValueError);
    reflexivity.
Defined.

(** ** The registry *)

(** Resolution changes the world by its events only. *)
Lemma deduce_version_world m w :
  exists evs, (ExternalVersions._deduce_version m w).2 = emit evs w.
Proof.
  destruct (usable m) eqn:Hu.
  - rewrite (deduce_version_usable _ _ Hu). eauto.
  - rewrite (deduce_version_metadata _ _ Hu). eauto.
Qed.

(** Its result and its events depend on the world through the metadata
    only. *)
Lemma deduce_version_ext m w1 w2 :
  distributions w1 = distributions w2 ->
  (ExternalVersions._deduce_version m w1).1 = (ExternalVersions._deduce_version m w2).1
  /\ exists evs, (ExternalVersions._deduce_version m w1).2 = emit evs w1
               /\ (ExternalVersions._deduce_version m w2).2 = emit evs w2.
Proof.
  intros Hd. destruct (usable m) eqn:Hu.
  - rewrite !(deduce_version_usable _ _ Hu). eauto.
  - rewrite !(deduce_version_metadata _ _ Hu). unfold metadata_answer.
    rewrite Hd. eauto.
Qed.

(** A new registry is empty: the sample registry is the one [__init__]
    makes in a world without dicts. *)
Example init_makes_sample_registry :
  ExternalVersions.__init__ (set_heap ∅ Sample.bare) = (Ok Sample.registry, Sample.bare)
  /\ (forall name, ExternalVersions.__contains__ Sample.registry name Sample.bare
                   = (Ok false, Sample.bare)).
Proof. split; [vm_compute; reflexivity|]. intros name. reflexivity. Qed.

(** A lookup of a cached name. *)
Lemma getitem_cached self w k v :
  cached self w (key_name k) = Some v ->
  ExternalVersions.__getitem__ self k w = (Ok (Some v), w).
Proof.
  unfold cached, ExternalVersions.__getitem__. intros Hc.
  destruct k as [n|m]; simpl in *;
    unfold bind, Dict.contains, Dict.get, ret;
    rewrite Hc; simpl; by rewrite Hc.
Qed.

Lemma record_spec self name (out : result VersionValue * world) :
  (let '(r, w') := out in
   match r with
   | Ok v =>
       (_ <- Dict.setitem (_versions self) name v ;;
        v <- Dict.get (_versions self) name UNKNOWN ;;
        ret (Some v)) w'
   | Raise e => (Raise e, w')
   end) = record self name out.
Proof.
  destruct out as [[v|e] w']; [|reflexivity].
  unfold bind, Dict.setitem, Dict.get, ret, record.
  unfold Dict.contents at 1. simpl.
  by rewrite lookup_insert_eq; simpl; rewrite lookup_insert_eq.
Qed.

(** A lookup, by handle, of a name that is not cached. *)
Lemma getitem_miss_module self w m :
  cached self w (__name__ m) = None ->
  ExternalVersions.__getitem__ self (KModule m) w
  = record self (__name__ m) (ExternalVersions._deduce_version m w).
Proof.
  unfold cached, ExternalVersions.__getitem__. intros Hc.
  unfold bind at 1. unfold Dict.contains at 1. rewrite Hc. simpl.
  unfold bind at 1. unfold ret at 1. rewrite <- record_spec.
  unfold bind at 1. by destruct (ExternalVersions._deduce_version m w) as [[v|e] w'].
Qed.

(** A lookup, by name, of a name that is not cached. *)
Lemma getitem_miss_name self w n :
  cached self w n = None ->
  ExternalVersions.__getitem__ self (KStr n) w
  = match sys_modules w !! n with
    | Some m => record self n (ExternalVersions._deduce_version m w)
    | None =>
        match importable w n with
        | Ok m =>
            record self n
              (ExternalVersions._deduce_version m
                 (log (EvImport n)
                      (set_sys_modules (<[n := m]> (sys_modules w)) w)))
        | Raise e =>
            if is_ImportError e then (Ok None, log (EvImport n) w)
            else (Raise e, log (EvImport n) w)
        end
    end.
Proof.
  unfold cached, ExternalVersions.__getitem__. intros Hc.
  unfold bind at 1. unfold Dict.contains at 1. rewrite Hc. simpl.
  unfold bind at 1. unfold bind at 1. unfold in_sys_modules at 1.
  destruct (sys_modules w !! n) as [m|] eqn:Hsm; simpl.
  - unfold bind at 1. unfold sys_modules_getitem at 1. rewrite Hsm.
    unfold ret at 1. rewrite <- record_spec.
    unfold bind at 1. by destruct (ExternalVersions._deduce_version m w) as [[v|e] w'].
  - unfold try_except at 1. unfold bind at 1. unfold __import__ at 1.
    destruct (importable w n) as [m|e]; simpl.
    + unfold ret at 1. rewrite <- record_spec. unfold bind at 1.
      by destruct (ExternalVersions._deduce_version m _) as [[v|e] w'].
    + by destruct (is_ImportError e).
Qed.

(** Resolution returns whenever the value it parses is a string or falsy. *)
Lemma deduce_version_returns (m : module) (w : world) :
  (usable m = false \/ exists s, joined (attribute_value m) = Scalar (SStr s)) ->
  exists v, (ExternalVersions._deduce_version m w).1 = Ok v.
Proof.
  intros [Hu | [s Hs]].
  - rewrite (deduce_version_metadata _ _ Hu). eauto.
  - destruct (usable m) eqn:Hu.
    + rewrite (deduce_version_usable _ _ Hu), Hs. eauto.
    + rewrite (deduce_version_metadata _ _ Hu). eauto.
Qed.

(** C2 (the code departs from the claim): a version attribute that is
    truthy and neither a string nor a sequence, such as the int 3, makes
    [StrictVersion] raise [TypeError]; only [ValueError] is caught, so the
    exception reaches the caller of [_deduce_version], and the caller of
    [__getitem__] when the name is not cached, and nothing is stored. *)
Theorem non_string_version_raises (m : module) (a : scalar) (w : world) :
  attribute_value m = Scalar a ->
  scalar_truthy a = true ->
  (forall s, a <> SStr s) ->
  ExternalVersions._deduce_version m w = (Raise TypeError, emit (probe_events m) w)
  /\ (forall self, cached self w (__name__ m) = None ->
        ExternalVersions.__getitem__ self (KModule m) w
        = (Raise TypeError, emit (probe_events m) w)).
Proof.
  intros Ha Ht Hs.
  assert (Hd : ExternalVersions._deduce_version m w
               = (Raise TypeError, emit (probe_events m) w)).
  { rewrite deduce_version_usable.
    - rewrite Ha. simpl. destruct a; try reflexivity. by destruct (Hs s).
    - unfold usable. by rewrite Ha. }
  split; [exact Hd|].
  intros self Hc. by rewrite (getitem_miss_module _ _ _ Hc), Hd.
Qed.

Lemma non_string_version_raises_witness :
  ExternalVersions._deduce_version Sample.mod_int Sample.bare
  = (Raise TypeError, emit (probe_events Sample.mod_int) Sample.bare)
  /\ (forall self, cached self Sample.bare (__name__ Sample.mod_int) = None ->
        ExternalVersions.__getitem__ self (KModule Sample.mod_int) Sample.bare
        = (Raise TypeError, emit (probe_events Sample.mod_int) Sample.bare)).
Proof.
  apply (non_string_version_raises Sample.mod_int (SInt 3) Sample.bare).
  - reflexivity.
  - reflexivity.
  - intros s. discriminate.
Defined.


Lemma record_cached_other self name out n :
  name <> n ->
  cached self (record self name out).2 n = cached self out.2 n.
Proof.
  intros Hne. destruct out as [[v|e] w']; [|reflexivity].
  unfold cached, Dict.contents. simpl.
  by rewrite lookup_insert_eq; simpl; rewrite lookup_insert_ne.
Qed.

(** A lookup keeps every entry that is there. *)
Lemma getitem_preserves self w k n v :
  cached self w n = Some v ->
  cached self (ExternalVersions.__getitem__ self k w).2 n = Some v.
Proof.
  intros Hn.
  destruct (cached self w (key_name k)) as [v'|] eqn:Hk.
  { by rewrite (getitem_cached _ _ _ _ Hk). }
  assert (Hne : key_name k <> n) by congruence.
  assert (Hrec : forall m w0, cached self w0 n = Some v ->
            cached self (record self (key_name k) (ExternalVersions._deduce_version m w0)).2 n
            = Some v).
  { intros m w0 H0. rewrite record_cached_other by done.
    destruct (deduce_version_world m w0) as [evs ->]. exact H0. }
  destruct k as [name|m]; simpl in *.
  - rewrite (getitem_miss_name _ _ _ Hk).
    destruct (sys_modules w !! name) as [m|]; [by apply Hrec|].
    destruct (importable w name) as [m|e]; [by apply Hrec|].
    by destruct (is_ImportError e).
  - rewrite (getitem_miss_module _ _ _ Hk). by apply Hrec.
Qed.

Lemma lookups_preserve self ks w n v :
  cached self w n = Some v -> cached self (lookups self ks w) n = Some v.
Proof.
  revert w. induction ks as [|k ks IH]; intros w Hn; simpl; [done|].
  apply IH. by apply getitem_preserves.
Qed.

(** C1: once [name] has an entry [v], every later lookup of [name], by
    name or by a handle of that name and after any other lookups, returns
    [v] and leaves the world as it is: no probe, no import and no metadata
    query is added to the trace. *)
Theorem cached_entry_is_final (self : ExternalVersions) (w : world)
    (name : string) (v : VersionValue) (ks : list key) (k : key) :
  cached self w name = Some v ->
  key_name k = name ->
  ExternalVersions.__getitem__ self k (lookups self ks w) = (Ok (Some v), lookups self ks w).
Proof.
  intros Hc <-. apply getitem_cached. by apply lookups_preserve.
Qed.

Lemma cached_entry_is_final_witness :
  ExternalVersions.__getitem__ Sample.registry (KModule Sample.mod_beta)
    (lookups Sample.registry [KStr "os"; KStr "pkg"] Sample.with_pkg_cached)
  = (Ok (Some (VStrict (mkStrict (1, 4, 2)%N None))),
     lookups Sample.registry [KStr "os"; KStr "pkg"] Sample.with_pkg_cached).
Proof.
  apply (cached_entry_is_final Sample.registry Sample.with_pkg_cached "pkg").
  - vm_compute. reflexivity.
  - reflexivity.
Defined.





(** ** The snapshot *)

Lemma agree_refl self w : agree self w w.
Proof. by repeat split. Qed.

Lemma record_agree self n m wa wb :
  agree self wa wb ->
  (record self n (ExternalVersions._deduce_version m wa)).1
  = (record self n (ExternalVersions._deduce_version m wb)).1
  /\ agree self (record self n (ExternalVersions._deduce_version m wa)).2
               (record self n (ExternalVersions._deduce_version m wb)).2.
Proof.
  intros (Hc & Hsm & Hi & Hd & Ht).
  destruct (deduce_version_ext m wa wb Hd) as (Hr & evs & Ha & Hb).
  destruct (ExternalVersions._deduce_version m wa) as [ra wa'].
  destruct (ExternalVersions._deduce_version m wb) as [rb wb'].
  simpl in *. subst rb wa' wb'.
  destruct ra as [v|e]; simpl.
  - split; [reflexivity|]. unfold agree, Dict.contents in *. simpl.
    rewrite !lookup_insert_eq. simpl. rewrite Hc, Hsm, Hi, Hd, Ht. done.
  - split; [reflexivity|]. unfold agree, Dict.contents in *. simpl.
    rewrite Hc, Hsm, Hi, Hd, Ht. done.
Qed.

(** A lookup sees the world through the registry's own dict, the loaded
    modules, the two capabilities and the trace only. *)
Lemma getitem_agree self k wa wb :
  agree self wa wb ->
  (ExternalVersions.__getitem__ self k wa).1 = (ExternalVersions.__getitem__ self k wb).1
  /\ agree self (ExternalVersions.__getitem__ self k wa).2 (ExternalVersions.__getitem__ self k wb).2.
Proof.
  intros Hag. pose proof Hag as (Hc & Hsm & Hi & Hd & Ht).
  destruct (cached self wa (key_name k)) as [v|] eqn:Hka.
  { assert (Hkb : cached self wb (key_name k) = Some v).
    { unfold cached in *. by rewrite <- Hc. }
    by rewrite (getitem_cached _ _ _ _ Hka), (getitem_cached _ _ _ _ Hkb). }
  assert (Hkb : cached self wb (key_name k) = None).
  { unfold cached in *. by rewrite <- Hc. }
  destruct k as [name|m]; simpl in *.
  - rewrite (getitem_miss_name _ _ _ Hka), (getitem_miss_name _ _ _ Hkb).
    rewrite <- Hsm, <- Hi.
    destruct (sys_modules wa !! name) as [m|]; [by apply record_agree|].
    destruct (importable wa name) as [m|e].
    + apply record_agree. unfold agree, Dict.contents in *. simpl.
      rewrite Hsm, Ht. done.
    + destruct (is_ImportError e); simpl; (split; [reflexivity|]);
        unfold agree, Dict.contents in *; simpl; rewrite Ht; done.
  - rewrite (getitem_miss_module _ _ _ Hka), (getitem_miss_module _ _ _ Hkb).
    by apply record_agree.
Qed.

Lemma contains_agree self name wa wb :
  agree self wa wb ->
  (ExternalVersions.__contains__ self name wa).1 = (ExternalVersions.__contains__ self name wb).1
  /\ agree self (ExternalVersions.__contains__ self name wa).2 (ExternalVersions.__contains__ self name wb).2.
Proof.
  intros Hag. pose proof Hag as (Hc & _).
  unfold ExternalVersions.__contains__, Dict.contains. simpl. by rewrite Hc.
Qed.

(** A change to another dict is not seen. *)
Lemma mutate_agree self l mu wa wb :
  l <> _versions self ->
  agree self wa wb ->
  agree self (mutate l mu wa).2 wb.
Proof.
  intros Hl (Hc & Hsm & Hi & Hd & Ht).
  assert (Hset : forall d, agree self (set_heap (<[l := d]> (heap wa)) wa) wb).
  { intros d. unfold agree, Dict.contents in *. simpl.
    by rewrite lookup_insert_ne. }
  destruct mu as [k v|k|]; simpl.
  - apply Hset.
  - unfold Dict.delitem. destruct (Dict.contents l wa !! k); simpl.
    + apply Hset.
    + by repeat split.
  - apply Hset.
Qed.

Lemma observe_agree self l acts wa wb :
  l <> _versions self ->
  agree self wa wb ->
  observe self l acts wa = observe self l (without_mutations acts) wb.
Proof.
  intros Hl. revert wa wb.
  induction acts as [|[k|name|mu] acts IH]; intros wa wb Hag.
  - reflexivity.
  - change (without_mutations (Lookup k :: acts))
      with (Lookup k :: without_mutations acts).
    cbn [observe].
    destruct (getitem_agree self k wa wb Hag) as [Hr Hag'].
    rewrite Hr. f_equal. by apply IH.
  - change (without_mutations (Contains name :: acts))
      with (Contains name :: without_mutations acts).
    cbn [observe].
    destruct (contains_agree self name wa wb Hag) as [Hr Hag'].
    rewrite Hr. f_equal. by apply IH.
  - change (without_mutations (Mutate mu :: acts))
      with (without_mutations acts).
    cbn [observe]. apply IH. by apply mutate_agree.
Qed.

(** C9: [versions] returns a new dict object, other than the registry's
    own, with the same items; whatever the caller then changes in it, at
    any time, every lookup and every membership test answers as it does
    when the changes are left out. *)
Theorem snapshot_is_a_copy (self : ExternalVersions) (w : world)
    (acts : list action) :
  is_Some (heap w !! _versions self) ->
  exists l w1,
    ExternalVersions.versions self w = (Ok l, w1)
    /\ l <> _versions self
    /\ Dict.contents l w1 = Dict.contents (_versions self) w
    /\ Dict.contents (_versions self) w1 = Dict.contents (_versions self) w
    /\ observe self l acts w1 = observe self l (without_mutations acts) w1.
Proof.
  intros Hal. unfold ExternalVersions.versions, Dict.copy.
  set (l := fresh (dom (heap w))).
  assert (Hfresh : l ∉ dom (heap w)) by apply is_fresh.
  assert (Hne : l <> _versions self).
  { intros Heq. apply Hfresh. rewrite Heq. by apply elem_of_dom. }
  eexists l, _. split; [reflexivity|]. split; [exact Hne|].
  split; [|split].
  - unfold Dict.contents at 1. simpl. by rewrite lookup_insert_eq.
  - unfold Dict.contents at 1. simpl. by rewrite lookup_insert_ne.
  - apply observe_agree; [exact Hne|apply agree_refl].
Qed.

Lemma snapshot_is_a_copy_witness :
  exists l w1,
    ExternalVersions.versions Sample.registry Sample.with_pkg_cached = (Ok l, w1)
    /\ l <> _versions Sample.registry
    /\ Dict.contents l w1
       = Dict.contents (_versions Sample.registry) Sample.with_pkg_cached
    /\ Dict.contents (_versions Sample.registry) w1
       = Dict.contents (_versions Sample.registry) Sample.with_pkg_cached
    /\ observe Sample.registry l
         [Mutate (MDel "pkg"); Lookup (KStr "pkg"); Mutate MClear;
          Contains "pkg"] w1
       = observe Sample.registry l
           (without_mutations
              [Mutate (MDel "pkg"); Lookup (KStr "pkg"); Mutate MClear;
               Contains "pkg"]) w1.
Proof.
  apply (snapshot_is_a_copy Sample.registry Sample.with_pkg_cached).
  vm_compute. eexists. reflexivity.
Defined.

(** The same changes made to the registry's own dict are seen: the model
    tells a copy from an alias. *)
Example changes_to_own_dict_are_seen :
  observe Sample.registry (_versions Sample.registry)
    [Mutate (MDel "pkg"); Contains "pkg"] Sample.with_pkg_cached
  = [Contained (Ok false)]
  /\ observe Sample.registry (_versions Sample.registry)
       [Contains "pkg"] Sample.with_pkg_cached
     = [Contained (Ok true)].
Proof. split; vm_compute; reflexivity. Qed.

(** ** The report *)

Lemma append_cons (c : ascii) (s t : string) :
  (String c s ++ t)%string = String c (s ++ t)%string.
Proof. reflexivity. Qed.

Lemma append_nil_r (s : string) : (s ++ "")%string = s.
Proof.
  induction s as [|c s IH]; [reflexivity|]. by rewrite append_cons, IH.
Qed.

Lemma append_assoc (s1 s2 s3 : string) :
  ((s1 ++ s2) ++ s3)%string = (s1 ++ s2 ++ s3)%string.
Proof.
  induction s1 as [|c s1 IH]; [reflexivity|]. by rewrite !append_cons, IH.
Qed.

(** Joining with [linesep ++ indent_] after an empty first item, then
    closing the last line, is one terminated line for each entry after the
    line of the preamble. *)
Lemma join_lines linesep indent_ (entries : list string) :
  (PyStr.join (linesep ++ indent_) ("" :: entries) ++ linesep)%string
  = (linesep ++ indented_lines linesep indent_ entries)%string.
Proof.
  assert (Hgen : forall x,
    (PyStr.join (linesep ++ indent_) (x :: entries) ++ linesep)%string
    = (x ++ linesep ++ indented_lines linesep indent_ entries)%string).
  { induction entries as [|e rest IH]; intros x.
    - cbn [PyStr.join indented_lines]. by rewrite append_nil_r.
    - change (PyStr.join (linesep ++ indent_) (x :: e :: rest))
        with (x ++ (linesep ++ indent_) ++ PyStr.join (linesep ++ indent_) (e :: rest))%string.
      rewrite !append_assoc, IH. reflexivity. }
  apply (Hgen "").
Qed.

(** Formatting the names of the registry raises nothing. *)
Lemma format_items_spec l names w :
  Forall (fun k => is_Some (Dict.contents l w !! k)) names ->
  ExternalVersions.format_items l names w
  = (Ok (map (fun k => entry (k, default UNKNOWN (Dict.contents l w !! k))) names),
     w).
Proof.
  induction 1 as [|k names [v Hk] _ IH]; simpl; [reflexivity|].
  unfold bind at 1. unfold Dict.getitem at 1. rewrite Hk.
  unfold bind at 1. rewrite IH. reflexivity.
Qed.

(** The names of a dict, sorted, with their values: the items of the dict
    in ascending order of the names. *)
Lemma sorted_items (d : gmap string VersionValue) :
  let kvs := map (fun k => (k, default UNKNOWN (d !! k)))
                 (sorted (map fst (map_to_list d))) in
  kvs ≡ₚ map_to_list d /\ sorted_by_name kvs.
Proof.
  set (f := fun k : string => (k, default UNKNOWN (d !! k))).
  simpl. split.
  - unfold sorted. rewrite merge_sort_Permutation.
    assert (Hid : forall l : list (string * VersionValue),
              Forall (fun kv => d !! kv.1 = Some kv.2) l ->
              map f (map fst l) = l).
    { induction 1 as [|[k v] l Hkv _ IH]; simpl; [reflexivity|].
      unfold f at 1. simpl in Hkv. rewrite Hkv. simpl. by rewrite IH. }
    rewrite Hid; [reflexivity|].
    apply Forall_forall. intros [k v] Hin. by apply elem_of_map_to_list.
  - unfold sorted_by_name, sorted.
    apply (Sorted_fmap f String.le); [by intros|].
    apply Sorted_merge_sort. apply _.
Qed.

Lemma sorted_names_present (d : gmap string VersionValue) :
  Forall (fun k => is_Some (d !! k)) (sorted (map fst (map_to_list d))).
Proof.
  apply Forall_forall. intros k Hk.
  unfold sorted in Hk. rewrite merge_sort_Permutation in Hk.
  apply list_elem_of_fmap in Hk as [[k' v] [-> Hin]].
  apply elem_of_map_to_list in Hin. simpl. eauto.
Qed.

(** What [dumps] returns, in terms of the items of the registry. *)
Lemma dumps_spec linesep self indent preamble w :
  ExternalVersions.dumps linesep self indent preamble w
  = (Ok (let entries :=
           map entry
             (map (fun k => (k, default UNKNOWN
                                  (Dict.contents (_versions self) w !! k)))
                  (sorted (map fst (map_to_list (Dict.contents (_versions self) w))))) in
         if indent_truthy indent then
           preamble ++ linesep
             ++ indented_lines linesep (indent_string indent) entries
         else preamble ++ " " ++ PyStr.join " " entries)%string,
     w).
Proof.
  unfold ExternalVersions.dumps, bind.
  rewrite (format_items_spec _ _ _ (sorted_names_present _)).
  rewrite map_map.
  destruct indent as [[|]|s]; cbn [indent_truthy indent_string].
  - unfold ret. by rewrite join_lines.
  - reflexivity.
  - destruct (negb (String.eqb s "")); [|reflexivity].
    unfold ret. by rewrite join_lines.
Qed.

(** *** What a strict version prints *)

Lemma digits_prefix_unique (s t u u' : string) :
  all_digits s = true -> all_digits t = true ->
  stops u = true -> stops u' = true ->
  (s ++ u)%string = (t ++ u')%string -> s = t /\ u = u'.
Proof.
  revert t. induction s as [|c s IH]; intros [|d t] Hs Ht Hu Hu' Heq.
  - done.
  - change (u = String d (t ++ u')%string) in Heq. subst u.
    simpl in Hu, Ht. destruct (PyStr.is_digit d); discriminate.
  - change (String c (s ++ u)%string = u') in Heq. subst u'.
    simpl in Hu', Hs. destruct (PyStr.is_digit c); discriminate.
  - rewrite !append_cons in Heq. injection Heq as -> Heq.
    simpl in Hs, Ht. apply andb_prop in Hs as [_ Hs], Ht as [_ Ht].
    destruct (IH t Hs Ht Hu Hu' Heq) as [-> ->]. done.
Qed.

Lemma str_of_N_digits (n : N) : all_digits (PyStr.str_of_N n) = true.
Proof.
  unfold PyStr.str_of_N. generalize (N.to_uint n).
  induction u as [|u IH|u IH|u IH|u IH|u IH|u IH|u IH|u IH|u IH|u IH];
    [reflexivity|exact IH..].
Qed.

Lemma str_of_N_zero (n : N) : PyStr.str_of_N n = "0" -> n = 0%N.
Proof.
  unfold PyStr.str_of_N. intros H.
  rewrite <- (DecimalN.Unsigned.of_to n).
  destruct (N.to_uint n) as [|u|u|u|u|u|u|u|u|u|u]; try discriminate H.
  destruct u; try discriminate H. reflexivity.
Qed.

(** No strict version prints as [1.0.0]: a third number that is 0 is left
    out. *)
Lemma strict_str_never_1_0_0 (v : StrictVersion) : Strict.__str__ v <> "1.0.0".
Proof.
  destruct v as [[[a b] c] pre]. unfold Strict.__str__. cbn [sv_version sv_prerelease].
  set (suf := match pre with
              | Some (t, n) => String (pre_tag_char t) (PyStr.str_of_N n)
              | None => ""
              end).
  assert (Hsuf : stops suf = true) by (by destruct pre as [[[|] n]|]).
  assert (Hform : forall vstring,
            match pre with
            | Some (t, n) =>
                (vstring ++ String (pre_tag_char t) "" ++ PyStr.str_of_N n)%string
            | None => vstring
            end = (vstring ++ suf)%string).
  { intros vstring. subst suf. destruct pre as [[t n]|]; [reflexivity|].
    by rewrite append_nil_r. }
  rewrite Hform. clear Hform.
  pose proof (str_of_N_digits a) as Ha.
  pose proof (str_of_N_digits b) as Hb.
  pose proof (str_of_N_digits c) as Hc.
  destruct (c =? 0)%N eqn:Hz; cbn [PyStr.join]; rewrite !append_assoc; intros Heq.
  - apply (digits_prefix_unique _ "1" _ ".0.0" Ha) in Heq as [_ Heq]; try done.
    injection Heq as Heq.
    apply (digits_prefix_unique _ "0" _ ".0" Hb) in Heq as [_ Heq]; try done.
    subst suf. by destruct pre as [[[|] n]|].
  - apply (digits_prefix_unique _ "1" _ ".0.0" Ha) in Heq as [_ Heq]; try done.
    injection Heq as Heq.
    apply (digits_prefix_unique _ "0" _ ".0" Hb) in Heq as [_ Heq]; try done.
    injection Heq as Heq.
    apply (digits_prefix_unique _ "0" _ "" Hc) in Heq as [Heq _]; try done.
    apply str_of_N_zero in Heq. subst c. discriminate Hz.
Qed.

(** No value that resolution stores prints as [1.0.0]. *)
Lemma parsed_version_never_prints_1_0_0 (s : string) :
  version_str (parse_version s) <> "1.0.0".
Proof.
  unfold parse_version. destruct (Strict.parse s) as [v|e] eqn:Hp; simpl.
  - apply strict_str_never_1_0_0.
  - unfold Loose.__str__. simpl. intros ->. vm_compute in Hp. discriminate Hp.
Qed.

(** C8, as the code has it: [dumps] prints the items of the registry in
    ascending order of their names, each as [name=version]; with a falsy
    [indent], after the preamble and a space, joined by spaces; with a
    truthy [indent], after the preamble and a line terminator, one to a
    line, each line starting with the indent (a space for [True]) and
    ending with the line terminator.  A strict version whose third number
    is 0 prints without it: for [a] at 1.0.0 and [b] unknown the indented
    report is [Versions:], [ a=1.0] and [ b=UNKNOWN], each followed by the
    line terminator. *)
Theorem dumps_prints_sorted_entries (linesep : string) (self : ExternalVersions)
    (w : world) (indent : indent_arg) (preamble : string) :
  (exists kvs : list (string * VersionValue),
     kvs ≡ₚ map_to_list (Dict.contents (_versions self) w)
     /\ sorted_by_name kvs
     /\ ExternalVersions.dumps linesep self indent preamble w
        = (Ok (if indent_truthy indent then
                 preamble ++ linesep
                   ++ indented_lines linesep (indent_string indent) (map entry kvs)
               else preamble ++ " " ++ PyStr.join " " (map entry kvs))%string,
           w))
  /\ ExternalVersions.dumps linesep Sample.registry (IndentBool true) "Versions:" Sample.with_a_and_b
     = (Ok ("Versions:" ++ linesep ++ " a=1.0" ++ linesep
            ++ " b=UNKNOWN" ++ linesep)%string,
        Sample.with_a_and_b)
  /\ ExternalVersions.dumps linesep Sample.registry (IndentBool false) "Versions:" Sample.with_a_and_b
     = (Ok "Versions: a=1.0 b=UNKNOWN", Sample.with_a_and_b).
Proof.
  split; [|split].
  - destruct (sorted_items (Dict.contents (_versions self) w)) as [Hperm Hsorted].
    eexists. split; [exact Hperm|]. split; [exact Hsorted|].
    apply dumps_spec.
  - rewrite dumps_spec. f_equal. f_equal.
    replace (sorted (map fst (map_to_list
               (Dict.contents (_versions Sample.registry) Sample.with_a_and_b))))
      with ["a"; "b"] by (vm_compute; reflexivity).
    cbn [indent_truthy indent_string map indented_lines].
    rewrite append_nil_r. reflexivity.
  - rewrite dumps_spec. vm_compute. reflexivity.
Qed.

(** C8, as the claim has it, fails: the indented report of [a] at 1.0.0
    and [b] unknown does not show [ a=1.0.0]. *)
Lemma dumps_does_not_print_zero_patch :
  ExternalVersions.dumps Sample.lf Sample.registry (IndentBool true) "Versions:" Sample.with_a_and_b
  <> (Ok ("Versions:" ++ Sample.lf ++ " a=1.0.0" ++ Sample.lf
          ++ " b=UNKNOWN" ++ Sample.lf)%string,
      Sample.with_a_and_b).
Proof.
  rewrite dumps_spec. intros Heq.
  apply (f_equal fst) in Heq. vm_compute in Heq. discriminate Heq.
Qed.

(** ** The sentinel *)

Lemma is_self_spec self other :
  UnknownVersion.is_self self other = true <-> other = OUnknown self.
Proof.
  destruct other; simpl; try (split; [discriminate|congruence]).
  rewrite Nat.eqb_eq. split; congruence.
Qed.

(** C3: [UnknownVersion.__eq__] returns [True] for the instance itself and
    raises [TypeError] for every other operand, and so does [==] with the
    instance on either side; ordering an instance with anything, on either
    side and under each of the four operators, raises [TypeError]. *)
Theorem unknown_version_compares_with_itself_only
    (self : nat) (other : operand) (op : cmp_op) :
  (UnknownVersion.__eq__ self other = Ok true <-> other = OUnknown self)
  /\ (UnknownVersion.__eq__ self other = Raise TypeError <-> other <> OUnknown self)
  /\ py_eq (OUnknown self) other = UnknownVersion.__eq__ self other
  /\ py_eq other (OUnknown self) = UnknownVersion.__eq__ self other
  /\ py_order op (OUnknown self) other = Raise TypeError
  /\ py_order op other (OUnknown self) = Raise TypeError.
Proof.
  pose proof (is_self_spec self other) as Hs.
  unfold UnknownVersion.__eq__.
  destruct (UnknownVersion.is_self self other) eqn:His.
  - assert (other = OUnknown self) as -> by by apply Hs.
    repeat split; try done;
      unfold py_eq, eq_method, UnknownVersion.__eq__; simpl;
      by rewrite Nat.eqb_refl.
  - assert (Hne : other <> OUnknown self).
    { intros Heq. apply Hs in Heq. congruence. }
    assert (Hleft : py_eq (OUnknown self) other = Raise TypeError).
    { unfold py_eq, eq_method, UnknownVersion.__eq__. by rewrite His. }
    assert (Hright : py_eq other (OUnknown self) = Raise TypeError).
    { destruct other as [| | | | |inst|inst]; try reflexivity.
      unfold py_eq, eq_method, UnknownVersion.__eq__. simpl in *.
      by rewrite Nat.eqb_sym, His. }
    assert (Hord : py_order op other (OUnknown self) = Raise TypeError).
    { destruct other, op; reflexivity. }
    repeat split; done.
Qed.

(** The sentinel of the registry against the values a lookup returns and
    against a string. *)
Example unknown_against_versions :
  py_eq (operand_of UNKNOWN) (operand_of UNKNOWN) = Ok true
  /\ py_eq (operand_of UNKNOWN) (operand_of (parse_version "1.4.2")) = Raise TypeError
  /\ py_eq (operand_of (parse_version "2021.08-beta")) (operand_of UNKNOWN)
     = Raise TypeError
  /\ py_order OpGt (operand_of UNKNOWN) (OStr "0") = Raise TypeError
  /\ py_order OpLt (operand_of (parse_version "1.4.2")) (operand_of UNKNOWN)
     = Raise TypeError.
Proof. repeat split. Qed.

(** * Further properties *)

(** ** More on resolution *)

Lemma deduce_version_eq m w :
  ExternalVersions._deduce_version m w
  = ((ExternalVersions._deduce_version m w).1, emit (resolution_events m) w).
Proof.
  unfold resolution_events. destruct (usable m) eqn:Hu.
  - by rewrite (deduce_version_usable _ _ Hu).
  - by rewrite (deduce_version_metadata _ _ Hu).
Qed.

Lemma resolution_events_no_import m :
  List.filter is_import (resolution_events m) = [].
Proof.
  unfold resolution_events, probe_events.
  destruct (usable m), (__dict__ m !! "__version__"),
    (__dict__ m !! "version"); reflexivity.
Qed.

Lemma parse_version_not_unknown s : parse_version s <> UNKNOWN.
Proof. unfold parse_version. destruct (Strict.parse s); discriminate. Qed.

(** Resolution reads the name of the module and the first of
    [__version__] and [version] that is there, nothing else: two modules
    that agree on these resolve alike, events included.  In particular
    [version] is not looked at when [__version__] is there, whatever its
    value. *)
Theorem resolution_reads_first_attribute_only (m1 m2 : module) (w : world) :
  __name__ m1 = __name__ m2 ->
  __dict__ m1 !! "__version__" = __dict__ m2 !! "__version__" ->
  (__dict__ m1 !! "__version__" = None ->
   __dict__ m1 !! "version" = __dict__ m2 !! "version") ->
  ExternalVersions._deduce_version m1 w = ExternalVersions._deduce_version m2 w.
Proof.
  intros Hn Hd Hv.
  assert (Hav : attribute_value m1 = attribute_value m2).
  { unfold attribute_value. rewrite <- Hd.
    destruct (__dict__ m1 !! "__version__"); [done|]. by rewrite Hv. }
  assert (Hpe : probe_events m1 = probe_events m2).
  { unfold probe_events. rewrite <- Hd, Hn.
    destruct (__dict__ m1 !! "__version__"); [done|]. by rewrite Hv. }
  assert (Hus : usable m1 = usable m2) by (unfold usable; by rewrite Hav).
  destruct (usable m1) eqn:Hu.
  - rewrite (deduce_version_usable _ _ Hu), deduce_version_usable by done.
    by rewrite Hav, Hpe.
  - rewrite (deduce_version_metadata _ _ Hu), deduce_version_metadata by done.
    unfold metadata_answer. by rewrite Hn, Hpe.
Qed.

Lemma resolution_reads_first_attribute_only_witness :
  ExternalVersions._deduce_version Sample.mod_empty_dunder Sample.with_citeproc
  = ExternalVersions._deduce_version
      (mkModule "pkg" {[ "__version__" := Scalar (SStr "");
                         "__doc__" := Scalar (SStr "docs") ]})
      Sample.with_citeproc.
Proof.
  apply (resolution_reads_first_attribute_only Sample.mod_empty_dunder).
  - reflexivity.
  - vm_compute. reflexivity.
  - intros H. vm_compute in H. discriminate H.
Defined.

(** Resolution answers [UNKNOWN] exactly when no attribute is usable and
    the metadata lookup raises or answers the empty string. *)
Theorem resolution_is_unknown_exactly_without_string (m : module) (w : world) :
  (ExternalVersions._deduce_version m w).1 = Ok UNKNOWN
  <-> usable m = false
      /\ forall s, metadata_answer m w = Ok s -> s = "".
Proof.
  split.
  - destruct (usable m) eqn:Hu.
    + rewrite (deduce_version_usable _ _ Hu). simpl.
      destruct (joined (attribute_value m)) as [[| | |s|]| |];
        try discriminate.
      intros [= H]. by destruct (parse_version_not_unknown s).
    + rewrite (deduce_version_metadata _ _ Hu). simpl.
      intros [= H]. split; [reflexivity|]. intros s Hs.
      rewrite Hs in H. simpl in H.
      destruct (String.eqb_spec s ""); [done|].
      by destruct (parse_version_not_unknown s).
  - intros [Hu Hm]. rewrite (deduce_version_metadata _ _ Hu). simpl.
    destruct (metadata_answer m w) as [s|e]; [|reflexivity].
    by rewrite (Hm s eq_refl).
Qed.

(** The metadata is a fallback: resolution queries it once, for the
    distribution of the module, when no attribute is usable, and not at
    all otherwise; it never imports; and the events are all it changes in
    the world. *)
Theorem resolution_queries_metadata_only_as_fallback (m : module) (w : world) :
  exists evs,
    (ExternalVersions._deduce_version m w).2 = emit evs w
    /\ List.filter is_metadata evs
       = (if usable m then []
          else [EvMetadata (ExternalVersions.distribution_name (__name__ m))])
    /\ List.filter is_import evs = [].
Proof.
  exists (resolution_events m).
  split; [by rewrite deduce_version_eq|].
  split; [|apply resolution_events_no_import].
  unfold resolution_events, probe_events.
  destruct (usable m), (__dict__ m !! "__version__"),
    (__dict__ m !! "version"); reflexivity.
Qed.

(** A string that the strict grammar accepts resolves to its strict
    version, never to a loose one.  The string has at most 4300
    characters, so that none of its numbers is beyond the default limit
    past which [int()] raises [ValueError]. *)
Theorem strict_parse_is_preferred (m : module) (w : world) (s : string)
    (v : StrictVersion) :
  obtained_string m w = Some s ->
  String.length s <= 4300 ->
  Strict.parse s = Ok v ->
  (ExternalVersions._deduce_version m w).1 = Ok (VStrict v).
Proof.
  intros Hob _ Hp. unfold obtained_string in Hob.
  destruct (usable m) eqn:Hu.
  - rewrite (deduce_version_usable _ _ Hu).
    destruct (joined (attribute_value m)) as [[| | |s0|]| |]; try discriminate.
    injection Hob as ->. unfold parse_version. by rewrite Hp.
  - rewrite (deduce_version_metadata _ _ Hu). simpl.
    destruct (metadata_answer m w) as [s0|]; [|discriminate].
    simpl. destruct (String.eqb s0 ""); [discriminate|].
    injection Hob as ->. unfold parse_version. by rewrite Hp.
Qed.

Lemma strict_parse_is_preferred_witness :
  (ExternalVersions._deduce_version Sample.mod_citeproc Sample.with_citeproc).1
  = Ok (VStrict (mkStrict (0, 6, 0)%N None)).
Proof.
  apply (strict_parse_is_preferred Sample.mod_citeproc Sample.with_citeproc
           "0.6.0").
  - reflexivity.
  - simpl. lia.
  - reflexivity.
Defined.

(** ** More on lookups *)

Lemma record_deduce self n m w0 :
  record self n (ExternalVersions._deduce_version m w0)
  = match (ExternalVersions._deduce_version m w0).1 with
    | Ok v =>
        (Ok (Some v),
         set_heap (<[_versions self :=
                       <[n := v]> (Dict.contents (_versions self) w0)]> (heap w0))
                  (emit (resolution_events m) w0))
    | Raise e => (Raise e, emit (resolution_events m) w0)
    end.
Proof.
  pose proof (deduce_version_eq m w0) as H.
  destruct (ExternalVersions._deduce_version m w0) as [r w1].
  simpl in *. injection H as ->. by destruct r.
Qed.

(** The three ways a lookup goes: the name is cached; a module is found
    and resolved; the import raises. *)
Lemma getitem_cases self k w :
  (exists v, cached self w (key_name k) = Some v
             /\ ExternalVersions.__getitem__ self k w = (Ok (Some v), w))
  \/ (cached self w (key_name k) = None
      /\ exists m w0, handle_from k w m w0
         /\ ExternalVersions.__getitem__ self k w
            = record self (key_name k) (ExternalVersions._deduce_version m w0))
  \/ (cached self w (key_name k) = None
      /\ exists n e, k = KStr n /\ sys_modules w !! n = None
         /\ importable w n = Raise e
         /\ ExternalVersions.__getitem__ self k w
            = (if is_ImportError e then Ok None else Raise e,
               log (EvImport n) w)).
Proof.
  destruct (cached self w (key_name k)) as [v|] eqn:Hc.
  { left. exists v. split; [done|]. by apply getitem_cached. }
  right. destruct k as [n|m]; simpl in *.
  - rewrite (getitem_miss_name _ _ _ Hc).
    destruct (sys_modules w !! n) as [m|] eqn:Hsm.
    { left. split; [done|]. exists m, w. split; [|done]. left. done. }
    destruct (importable w n) as [m|e] eqn:Hi.
    + left. split; [done|]. eexists m, _. split; [|done]. right. done.
    + right. split; [done|]. exists n, e. repeat split; try done.
      by destruct (is_ImportError e).
  - left. split; [done|]. exists m, w. split; [done|].
    by apply getitem_miss_module.
Qed.

Lemma handle_from_world k w m w0 :
  handle_from k w m w0 ->
  heap w0 = heap w /\ importable w0 = importable w
  /\ distributions w0 = distributions w.
Proof.
  destruct k as [n|m']; simpl.
  - intros [[_ ->] | (_ & _ & ->)]; done.
  - intros [_ ->]. done.
Qed.

(** After a lookup the entry of the name is the version returned, and is
    left as it was when the lookup returned [None] or raised. *)
Lemma getitem_entry self k w :
  cached self (ExternalVersions.__getitem__ self k w).2 (key_name k)
  = match (ExternalVersions.__getitem__ self k w).1 with
    | Ok (Some v) => Some v
    | _ => cached self w (key_name k)
    end.
Proof.
  destruct (getitem_cases self k w)
    as [(v & Hc & ->) | [(Hc & m & w0 & Hh & ->) | (Hc & n & e & -> & Hs & Hi & ->)]].
  - done.
  - destruct (handle_from_world _ _ _ _ Hh) as (Hheap & _ & _).
    rewrite record_deduce.
    destruct ((ExternalVersions._deduce_version m w0).1) as [v|e]; simpl.
    + unfold cached, Dict.contents. simpl.
      by rewrite lookup_insert_eq; simpl; rewrite lookup_insert_eq.
    + unfold cached, Dict.contents. simpl. by rewrite Hheap.
  - by destruct (is_ImportError e).
Qed.

(** What a lookup leaves alone: the two capabilities, every dict object
    but the registry's own, every entry but the one of the name, every
    loaded module; and it calls [__import__] at most once, only for a name
    that is neither cached nor loaded. *)
Lemma getitem_effects self k w :
  let w' := (ExternalVersions.__getitem__ self k w).2 in
  importable w' = importable w
  /\ distributions w' = distributions w
  /\ (forall l, l <> _versions self -> heap w' !! l = heap w !! l)
  /\ (forall n, n <> key_name k -> cached self w' n = cached self w n)
  /\ (forall n m, sys_modules w !! n = Some m -> sys_modules w' !! n = Some m)
  /\ exists evs,
       trace w' = trace w ++ evs
       /\ (List.filter is_import evs = []
           \/ exists n, k = KStr n /\ cached self w n = None
                        /\ sys_modules w !! n = None
                        /\ List.filter is_import evs = [EvImport n]
                        /\ (forall m, importable w n = Ok m ->
                              sys_modules w' !! n = Some m)).
Proof.
  destruct (getitem_cases self k w)
    as [(v & Hc & ->) | [(Hc & m & w0 & Hh & ->) | (Hc & n & e & -> & Hs & Hi & ->)]].
  - simpl. repeat split; try done.
    exists []. split; [by rewrite app_nil_r|by left].
  - rewrite record_deduce.
    assert (Hw' : forall w1 : world,
      (w1 = emit (resolution_events m) w0
       \/ exists v, w1 = set_heap (<[_versions self :=
                          <[key_name k := v]> (Dict.contents (_versions self) w0)]>
                          (heap w0)) (emit (resolution_events m) w0)) ->
      importable w1 = importable w
      /\ distributions w1 = distributions w
      /\ (forall l, l <> _versions self -> heap w1 !! l = heap w !! l)
      /\ (forall n, n <> key_name k -> cached self w1 n = cached self w n)
      /\ (forall n m', sys_modules w !! n = Some m' -> sys_modules w1 !! n = Some m')
      /\ exists evs,
           trace w1 = trace w ++ evs
           /\ (List.filter is_import evs = []
               \/ exists n, k = KStr n /\ cached self w n = None
                            /\ sys_modules w !! n = None
                            /\ List.filter is_import evs = [EvImport n]
                            /\ (forall m', importable w n = Ok m' ->
                                  sys_modules w1 !! n = Some m'))).
    { intros w1 Hw1.
      assert (Hsame : importable w1 = importable w0
                      /\ distributions w1 = distributions w0
                      /\ sys_modules w1 = sys_modules w0
                      /\ trace w1 = trace w0 ++ resolution_events m
                      /\ (forall l, l <> _versions self -> heap w1 !! l = heap w0 !! l)
                      /\ (forall n, n <> key_name k ->
                            cached self w1 n = cached self w0 n)).
      { destruct Hw1 as [-> | [v ->]]; repeat split; try done.
        - intros l Hl. simpl. by rewrite lookup_insert_ne.
        - intros n Hn. unfold cached, Dict.contents. simpl.
          by rewrite lookup_insert_eq; simpl; rewrite lookup_insert_ne. }
      destruct Hsame as (Hi1 & Hd1 & Hs1 & Ht1 & Hh1 & Hc1).
      destruct k as [n|mk]; simpl in Hh.
      - destruct Hh as [[Hsm ->] | (Hsm & Himp & ->)].
        + repeat split; try done.
          * intros n' m' H'. by rewrite Hs1.
          * exists (resolution_events m). split; [done|]. left.
            apply resolution_events_no_import.
        + simpl in *. repeat split; try done.
          * intros n' m' H'. rewrite Hs1.
            destruct (decide (n = n')) as [<-|Hne]; [congruence|].
            by rewrite lookup_insert_ne.
          * exists (EvImport n :: resolution_events m).
            split; [by rewrite Ht1, <- app_assoc|]. right.
            exists n. repeat split; try done.
            -- simpl. by rewrite resolution_events_no_import.
            -- intros m'' Hm''. rewrite Hs1, lookup_insert_eq. congruence.
      - destruct Hh as [<- ->]. repeat split; try done.
        + intros n' m' H'. by rewrite Hs1.
        + exists (resolution_events m). split; [done|]. left.
          apply resolution_events_no_import. }
    destruct ((ExternalVersions._deduce_version m w0).1) as [v|e].
    + exact (Hw' _ (or_intror (ex_intro _ v eq_refl))).
    + exact (Hw' _ (or_introl eq_refl)).
  - assert (Hw' : forall r : result (option VersionValue),
              let w' := (r, log (EvImport n) w).2 in
              importable w' = importable w
              /\ distributions w' = distributions w
              /\ (forall l, l <> _versions self -> heap w' !! l = heap w !! l)
              /\ (forall n0, n0 <> n -> cached self w' n0 = cached self w n0)
              /\ (forall n0 m, sys_modules w !! n0 = Some m ->
                    sys_modules w' !! n0 = Some m)
              /\ exists evs,
                   trace w' = trace w ++ evs
                   /\ (List.filter is_import evs = []
                       \/ exists n0, KStr n = KStr n0 /\ cached self w n0 = None
                            /\ sys_modules w !! n0 = None
                            /\ List.filter is_import evs = [EvImport n0]
                            /\ (forall m, importable w n0 = Ok m ->
                                  sys_modules w' !! n0 = Some m))).
    { intros r. simpl. repeat split; try done.
      exists [EvImport n]. split; [done|]. right. exists n.
      repeat split; try done. intros m Hm. congruence. }
    destruct (is_ImportError e); [exact (Hw' (Ok None))|exact (Hw' (Raise e))].
Qed.

(** A lookup that returns a version has stored it: every later lookup
    under the same name, by name or by handle and after any other
    lookups, returns that version and changes nothing. *)
Theorem lookup_is_repeatable (self : ExternalVersions) (w : world) (k : key)
    (v : VersionValue) (ks : list key) (k' : key) :
  (ExternalVersions.__getitem__ self k w).1 = Ok (Some v) ->
  key_name k' = key_name k ->
  let w' := lookups self ks (ExternalVersions.__getitem__ self k w).2 in
  ExternalVersions.__getitem__ self k' w' = (Ok (Some v), w').
Proof.
  intros Hr Hk w'. apply getitem_cached. rewrite Hk.
  apply lookups_preserve. by rewrite getitem_entry, Hr.
Qed.

Lemma lookup_is_repeatable_witness :
  let w' := lookups Sample.registry [KStr "absent"]
              (ExternalVersions.__getitem__ Sample.registry
                 (KModule Sample.mod_tuple) Sample.bare).2 in
  ExternalVersions.__getitem__ Sample.registry (KStr "pkg") w'
  = (Ok (Some (VStrict (mkStrict (1, 4, 2)%N None))), w').
Proof.
  apply (lookup_is_repeatable Sample.registry Sample.bare
           (KModule Sample.mod_tuple)).
  - vm_compute. reflexivity.
  - reflexivity.
Defined.

(** A lookup returns [None] only for a name, neither cached nor loaded,
    whose import raised [ImportError]: a lookup by handle never returns
    [None], and neither does a lookup that resolves. *)
Theorem lookup_none_means_import_failed (self : ExternalVersions) (w : world)
    (k : key) :
  (ExternalVersions.__getitem__ self k w).1 = Ok None ->
  exists n e,
    k = KStr n /\ cached self w n = None /\ sys_modules w !! n = None
    /\ importable w n = Raise e /\ is_ImportError e = true.
Proof.
  destruct (getitem_cases self k w)
    as [(v & Hc & ->) | [(Hc & m & w0 & Hh & ->) | (Hc & n & e & -> & Hs & Hi & ->)]].
  - discriminate.
  - rewrite record_deduce.
    destruct ((ExternalVersions._deduce_version m w0).1); discriminate.
  - destruct (is_ImportError e) eqn:He; [|discriminate].
    intros _. exists n, e. done.
Qed.

Lemma lookup_none_means_import_failed_witness :
  exists n e,
    KStr "absent" = KStr n /\ cached Sample.registry Sample.bare n = None
    /\ sys_modules Sample.bare !! n = None
    /\ importable Sample.bare n = Raise e /\ is_ImportError e = true.
Proof.
  apply (lookup_none_means_import_failed Sample.registry Sample.bare
           (KStr "absent")).
  vm_compute. reflexivity.
Defined.



(** A lookup by handle does not import and leaves [sys.modules] as it
    is. *)
Theorem lookup_by_handle_never_imports (self : ExternalVersions) (w : world)
    (m : module) :
  let w' := (ExternalVersions.__getitem__ self (KModule m) w).2 in
  sys_modules w' = sys_modules w
  /\ exists evs, trace w' = trace w ++ evs /\ List.filter is_import evs = [].
Proof.
  destruct (getitem_cases self (KModule m) w)
    as [(v & Hc & ->) | [(Hc & m0 & w0 & Hh & ->) | (Hc & n & e & Hk & _)]].
  - simpl. split; [done|]. exists []. by rewrite app_nil_r.
  - simpl in Hh. destruct Hh as [-> ->]. rewrite record_deduce.
    destruct ((ExternalVersions._deduce_version m w).1); simpl;
      (split; [done|]); exists (resolution_events m);
      (split; [done|apply resolution_events_no_import]).
  - discriminate Hk.
Qed.

(** A name whose loaded module carries that same name as its [__name__]
    is looked up as the handle of that module is: [sys.modules] is used
    and nothing is imported.  (A module loaded under another name than its
    own, as [os.path] is, is stored under the name asked for by the one
    lookup and under its own name by the other.) *)
Theorem loaded_name_is_looked_up_by_handle (self : ExternalVersions)
    (w : world) (n : string) (m : module) :
  sys_modules w !! n = Some m ->
  __name__ m = n ->
  ExternalVersions.__getitem__ self (KStr n) w
  = ExternalVersions.__getitem__ self (KModule m) w.
Proof.
  intros Hsm Hn. destruct (cached self w n) as [v|] eqn:Hc.
  - rewrite (getitem_cached self w (KStr n) v) by done.
    rewrite (getitem_cached self w (KModule m) v); [done|].
    simpl. by rewrite Hn.
  - rewrite (getitem_miss_name _ _ _ Hc), Hsm.
    rewrite getitem_miss_module by (by rewrite Hn). by rewrite Hn.
Qed.

Lemma loaded_name_is_looked_up_by_handle_witness :
  ExternalVersions.__getitem__ Sample.registry (KStr "pkg") Sample.with_pkg_loaded
  = ExternalVersions.__getitem__ Sample.registry (KModule Sample.mod_tuple)
      Sample.with_pkg_loaded.
Proof.
  apply (loaded_name_is_looked_up_by_handle Sample.registry
           Sample.with_pkg_loaded "pkg" Sample.mod_tuple).
  - vm_compute. reflexivity.
  - reflexivity.
Defined.

(** A module loaded under another name than its own: the lookup by name
    stores under the name asked for, the lookup by handle under the
    module's own name. *)
Example loaded_under_another_name :
  let by_name := (ExternalVersions.__getitem__ Sample.registry
                    (KStr "os.path") Sample.with_os_path_loaded).2 in
  let by_handle := (ExternalVersions.__getitem__ Sample.registry
                      (KModule Sample.mod_posixpath)
                      Sample.with_os_path_loaded).2 in
  cached Sample.registry by_name "os.path" = Some UNKNOWN
  /\ cached Sample.registry by_name "posixpath" = None
  /\ cached Sample.registry by_handle "os.path" = None
  /\ cached Sample.registry by_handle "posixpath" = Some UNKNOWN.
Proof. repeat split; vm_compute; reflexivity. Qed.

Lemma known_preserved self k w n :
  known self w n -> known self (ExternalVersions.__getitem__ self k w).2 n.
Proof.
  intros [[v Hv] | [m Hm]].
  - left. exists v. by apply getitem_preserves.
  - right. exists m.
    destruct (getitem_effects self k w) as (_ & _ & _ & _ & Hs & _).
    by apply Hs.
Qed.

Lemma lookups_known self ks w n :
  known self w n -> known self (lookups self ks w) n.
Proof.
  revert w. induction ks as [|k ks IH]; intros w Hk; [done|].
  simpl. apply IH. by apply known_preserved.
Qed.

Lemma known_lookup_does_not_import self w n :
  known self w n ->
  exists evs,
    trace (ExternalVersions.__getitem__ self (KStr n) w).2 = trace w ++ evs
    /\ List.filter is_import evs = [].
Proof.
  intros Hk.
  destruct (getitem_effects self (KStr n) w)
    as (_ & _ & _ & _ & _ & evs & Ht & [Hf | (n' & [= <-] & Hc & Hs & _)]).
  - by exists evs.
  - destruct Hk as [[v Hv] | [m Hm]]; congruence.
Qed.

(** A name is imported at most once: when its import succeeds, no later
    lookup of the name calls [__import__], whether the resolution that
    followed the import returned or raised. *)
Theorem name_is_imported_at_most_once (self : ExternalVersions) (w : world)
    (n : string) (m : module) (ks : list key) :
  importable w n = Ok m ->
  let w' := lookups self ks (ExternalVersions.__getitem__ self (KStr n) w).2 in
  exists evs,
    trace (ExternalVersions.__getitem__ self (KStr n) w').2 = trace w' ++ evs
    /\ List.filter is_import evs = [].
Proof.
  intros Hi w'. apply known_lookup_does_not_import. apply lookups_known.
  destruct (cached self w n) as [v|] eqn:Hc.
  { left. exists v. by apply getitem_preserves. }
  right. destruct (sys_modules w !! n) as [m0|] eqn:Hs.
  { exists m0.
    destruct (getitem_effects self (KStr n) w) as (_ & _ & _ & _ & Hsm & _).
    by apply Hsm. }
  exists m. rewrite (getitem_miss_name _ _ _ Hc), Hs, Hi, record_deduce.
  destruct ((ExternalVersions._deduce_version m _).1); simpl;
    by rewrite lookup_insert_eq.
Qed.

Lemma name_is_imported_at_most_once_witness :
  let w' := lookups Sample.registry [KStr "absent"]
              (ExternalVersions.__getitem__ Sample.registry (KStr "pkg")
                 Sample.with_pkg_installed).2 in
  exists evs,
    trace (ExternalVersions.__getitem__ Sample.registry (KStr "pkg") w').2
    = trace w' ++ evs
    /\ List.filter is_import evs = [].
Proof.
  apply (name_is_imported_at_most_once Sample.registry
           Sample.with_pkg_installed "pkg" Sample.mod_tuple).
  reflexivity.
Defined.


(** ** More on the dict objects *)

Lemma lookups_leave_other_dicts self ks w l :
  l <> _versions self -> heap (lookups self ks w) !! l = heap w !! l.
Proof.
  intros Hl. revert w. induction ks as [|k ks IH]; intros w; [done|].
  simpl. rewrite IH.
  destruct (getitem_effects self k w) as (_ & _ & Hh & _). by apply Hh.
Qed.

(** The snapshot is frozen and the view of [keys] is live: whatever is
    looked up after [versions] returned, the dict it returned keeps the
    items the registry had then, while the dict that [keys] looks at is
    the registry's own. *)
Theorem snapshot_does_not_follow_lookups (self : ExternalVersions) (w : world)
    (ks : list key) :
  is_Some (heap w !! _versions self) ->
  exists l w1,
    ExternalVersions.versions self w = (Ok l, w1)
    /\ Dict.contents l (lookups self ks w1) = Dict.contents (_versions self) w
    /\ exists view,
         ExternalVersions.keys self w1 = (Ok view, w1)
         /\ Dict.contents view (lookups self ks w1)
            = Dict.contents (_versions self) (lookups self ks w1).
Proof.
  intros Hal. unfold ExternalVersions.versions, Dict.copy.
  set (l := fresh (dom (heap w))).
  assert (Hne : l <> _versions self).
  { intros Heq. apply (is_fresh (dom (heap w))). fold l. rewrite Heq.
    by apply elem_of_dom. }
  eexists l, _. split; [reflexivity|]. split.
  - unfold Dict.contents at 1.
    rewrite lookups_leave_other_dicts by done. simpl.
    by rewrite lookup_insert_eq.
  - eexists. split; reflexivity.
Qed.

Lemma snapshot_does_not_follow_lookups_witness :
  exists l w1,
    ExternalVersions.versions Sample.registry Sample.bare = (Ok l, w1)
    /\ Dict.contents l (lookups Sample.registry [KModule Sample.mod_tuple] w1)
       = Dict.contents (_versions Sample.registry) Sample.bare
    /\ exists view,
         ExternalVersions.keys Sample.registry w1 = (Ok view, w1)
         /\ Dict.contents view
              (lookups Sample.registry [KModule Sample.mod_tuple] w1)
            = Dict.contents (_versions Sample.registry)
                (lookups Sample.registry [KModule Sample.mod_tuple] w1).
Proof.
  apply (snapshot_does_not_follow_lookups Sample.registry Sample.bare
           [KModule Sample.mod_tuple]).
  vm_compute. eexists. reflexivity.
Defined.

(** Each registry has a dict of its own: two registries made one after
    the other hold different dict objects, both empty, the dict objects
    that were there are untouched, and whatever is looked up in the first
    registry the second stays empty. *)
Theorem new_registries_share_nothing (w : world) (ks : list key) :
  exists r1 w1 r2 w2,
    ExternalVersions.__init__ w = (Ok r1, w1)
    /\ ExternalVersions.__init__ w1 = (Ok r2, w2)
    /\ _versions r1 <> _versions r2
    /\ (forall l d, heap w !! l = Some d -> heap w2 !! l = Some d)
    /\ (forall n, cached r1 w2 n = None)
    /\ (forall n, cached r2 (lookups r1 ks w2) n = None).
Proof.
  unfold ExternalVersions.__init__, bind, Dict.new, ret.
  set (l1 := fresh (dom (heap w))).
  set (w1 := set_heap (<[l1 := ∅]> (heap w)) w).
  set (l2 := fresh (dom (heap w1))).
  assert (H1 : l1 ∉ dom (heap w)) by apply is_fresh.
  assert (H2 : l2 ∉ dom (heap w1)) by apply is_fresh.
  assert (Hne : l1 <> l2).
  { intros Heq. apply H2. rewrite <- Heq. subst w1. simpl.
    rewrite dom_insert_L. set_solver. }
  eexists _, _, _, _. split; [reflexivity|]. split; [reflexivity|].
  simpl. change (fresh (dom (<[l1:=∅]> (heap w)))) with l2.
  split; [exact Hne|]. split; [|split].
  - intros l d Hl.
    assert (Hin : l ∈ dom (heap w)) by (apply elem_of_dom; eauto).
    assert (Hin1 : l ∈ dom (heap w1)).
    { subst w1. simpl. rewrite dom_insert_L. set_solver. }
    rewrite lookup_insert_ne by (intros ->; done).
    rewrite lookup_insert_ne by (intros ->; done). done.
  - intros n. unfold cached, Dict.contents. simpl.
    change (fresh (dom (<[l1:=∅]> (heap w)))) with l2.
    rewrite lookup_insert_ne by congruence.
    by rewrite lookup_insert_eq.
  - intros n. unfold cached, Dict.contents.
    rewrite lookups_leave_other_dicts by (simpl; congruence).
    simpl. change (fresh (dom (<[l1:=∅]> (heap w)))) with l2.
    by rewrite lookup_insert_eq.
Qed.

(** ** More on the report *)

(** The report of an empty registry is the preamble followed by one
    space, or by the line terminator when [indent] is truthy. *)
Theorem dumps_of_empty_registry (linesep : string) (self : ExternalVersions)
    (w : world) (indent : indent_arg) (preamble : string) :
  Dict.contents (_versions self) w = ∅ ->
  ExternalVersions.dumps linesep self indent preamble w
  = (Ok (if indent_truthy indent then preamble ++ linesep
         else preamble ++ " ")%string,
     w).
Proof.
  intros He. rewrite dumps_spec, He, map_to_list_empty.
  cbn [map sorted merge_sort merge_sort_aux merge_stack indented_lines PyStr.join].
  by rewrite !append_nil_r.
Qed.

Lemma dumps_of_empty_registry_witness :
  ExternalVersions.dumps Sample.lf Sample.registry (IndentBool false)
    "Versions:" Sample.bare
  = (Ok (if indent_truthy (IndentBool false) then "Versions:" ++ Sample.lf
         else "Versions:" ++ " ")%string,
     Sample.bare).
Proof.
  apply (dumps_of_empty_registry Sample.lf Sample.registry Sample.bare
           (IndentBool false) "Versions:").
  vm_compute. reflexivity.
Defined.



(** ** More on the sentinel *)

(** [!=] on an instance of [UnknownVersion] is [False] for the instance
    itself and raises [TypeError] for every other operand, on either
    side: the class inherits [__ne__], which inverts [__eq__]. *)
Theorem unknown_version_differs_only_by_raising (self : nat) (other : operand) :
  py_ne (OUnknown self) other
  = (if UnknownVersion.is_self self other then Ok false else Raise TypeError)
  /\ py_ne other (OUnknown self)
     = (if UnknownVersion.is_self self other then Ok false else Raise TypeError).
Proof.
  pose proof (is_self_spec self other) as Hs.
  destruct (UnknownVersion.is_self self other) eqn:His.
  - assert (other = OUnknown self) as -> by by apply Hs.
    unfold py_ne, ne_method, eq_method, UnknownVersion.__eq__. simpl.
    by rewrite Nat.eqb_refl.
  - split.
    + unfold py_ne, ne_method, eq_method, UnknownVersion.__eq__.
      by rewrite His.
    + destruct other as [| | | | |inst|inst]; try reflexivity.
      unfold py_ne, ne_method, eq_method, UnknownVersion.__eq__. simpl in *.
      by rewrite Nat.eqb_sym, His.
Qed.
